(** * The review state of ASReview: [asreview/state/hdf5.py] and [asreview/state/base.py]

    A shallow embedding of the class [HDF5State] (and of the part of
    [BaseState] it inherits), followed by the properties of the state log,
    of the record table, of the version gate, of the feature store and of
    [close] that the specification talks about.

    Conventions.
    - Python integers are [Z]; Python strings are [string]; [None] is the
      [None] of an [option].
    - A Python exception is a constructor of [exn]; a method that only reads
      the state has type [HDF5State -> result A], a method that writes it has
      type [M A] (state passing: the state reached when the exception was
      raised is kept, as in Python).
    - A pandas column or a numpy array is a [list]; numpy's indexing with a
      list of positions is [np_take], with Python's rule for negative
      positions written out. *)

From Stdlib Require Import ZArith Lia.
From stdpp Require Import base list strings gmap pretty.

Local Open Scope Z_scope.
Local Open Scope string_scope.

(** ** Exceptions and results *)

Inductive exn : Type :=
  | ValueError
  | KeyError
  | TypeError
  | IndexError
  | AttributeError
  | StateNotFoundError.

Global Instance exn_eq_dec : EqDecision exn.
Proof. solve_decision. Defined.

Inductive result (A : Type) : Type :=
  | Ok (a : A)
  | Raise (e : exn).

Arguments Ok {A} a.
Arguments Raise {A} e.

Definition rbind {A B : Type} (r : result A) (k : A -> result B) : result B :=
  match r with
  | Ok a => k a
  | Raise e => Raise e
  end.

Declare Scope py_scope.
Delimit Scope py_scope with py.

Notation "'let?' x ':=' r 'in' k" := (rbind r (fun x => k))
  (at level 10, x name, r at level 100, k at level 200) : py_scope.

Local Open Scope py_scope.

(** ** numpy and list helpers *)

(** [l.count(x)] of a Python list. *)
Fixpoint list_count {A : Type} `{EqDecision A} (x : A) (l : list A) : Z :=
  match l with
  | [] => 0
  | y :: l' => (if decide (y = x) then 1 else 0) + list_count x l'
  end.

(** [range(n)]: the positions [0, 1, ..., n-1]; empty when [n <= 0]. *)
Definition range (n : Z) : list Z := seqZ 0 n.

(** [l[n:]] for [n >= 0] (the only sign the callers produce). *)
Definition slice_from {A : Type} (n : Z) (l : list A) : list A :=
  drop (Z.to_nat n) l.

(** One position of numpy's integer indexing: a position [i] with
    [-len <= i < len] is accepted, a negative one counting from the end;
    anything else raises [IndexError]. *)
Definition np_index {A : Type} (arr : list A) (i : Z) : result A :=
  let n := Z.of_nat (length arr) in
  if bool_decide (- n <= i < n) then
    match arr !! Z.to_nat (if bool_decide (i < 0) then n + i else i) with
    | Some a => Ok a
    | None => Raise IndexError
    end
  else Raise IndexError.

(** [arr[positions]] (indexing with a list or a range of positions). *)
Fixpoint np_take {A : Type} (arr : list A) (positions : list Z) : result (list A) :=
  match positions with
  | [] => Ok []
  | i :: rest =>
      let? a := np_index arr i in
      let? r := np_take arr rest in
      Ok (a :: r)
  end.

(** [np.where(arr == x)[0]]: the positions at which [arr] holds [x]. *)
Fixpoint np_where_from {A : Type} `{EqDecision A} (x : A) (arr : list A) (pos : Z) : list Z :=
  match arr with
  | [] => []
  | y :: arr' =>
      if decide (y = x) then pos :: np_where_from x arr' (pos + 1)
      else np_where_from x arr' (pos + 1)
  end.

Definition np_where {A : Type} `{EqDecision A} (x : A) (arr : list A) : list Z :=
  np_where_from x arr 0.

(** [np.unique(l).shape[0]]: the number of distinct values of [l]. *)
Definition np_unique_count {A : Type} `{EqDecision A} (l : list A) : Z :=
  Z.of_nat (length (remove_dups l)).

(** [[g(x) for x in l]] with a [g] that may raise. *)
Fixpoint map_result {A B : Type} (g : A -> result B) (l : list A) : result (list B) :=
  match l with
  | [] => Ok []
  | x :: l' =>
      let? y := g x in
      let? ys := map_result g l' in
      Ok (y :: ys)
  end.

(** [str(n)] of a Python integer (decimal, with a leading minus sign). *)
Definition str_of_int (n : Z) : string := pretty n.

(** ** The results table *)

Definition LATEST_HDF5STATE_VERSION : string := "1.1".

Definition RESULTS_TABLE_COLUMNS : list string :=
  [ "indices"; "labels"; "predictor_classifiers"; "predictor_query_strategies";
    "predictor_balance_strategies"; "predictor_feature_extraction";
    "predictor_training_sets"; "labeling_times" ].

(** A cell read back from the table. [VDatetime us] is the [datetime] that
    [get_labeling_time] builds from the timestamp [us] (microseconds). *)
Inductive value : Type :=
  | VInt (z : Z)
  | VStr (s : string)
  | VDatetime (us : Z).

Global Instance value_eq_dec : EqDecision value.
Proof. solve_decision. Defined.

(** One row of the table [results], typed as [create_sql_data_in_zipfile]
    declares the columns. The column [labeling_times] is declared [TEXT]
    while the docstrings speak of integer timestamps: a cell of it is kept
    as the Python object it is, a [str] ([VStr]) when sqlite hands back
    what it stored in a [TEXT] column, an [int] ([VInt]) otherwise. *)
Record LogRow : Type := mkLogRow {
  indices : Z;
  labels : Z;
  predictor_classifiers : string;
  predictor_query_strategies : string;
  predictor_balance_strategies : string;
  predictor_feature_extraction : string;
  predictor_training_sets : Z;
  labeling_times : value
}.

(** The cached [pd.DataFrame] [self.results]: which columns of the schema
    the frame has, and its rows. A column that the frame does not list
    cannot be read, whatever the rows hold; every column has as many
    entries as the frame has rows. *)
Record DataFrame : Type := mkDataFrame {
  df_columns : list string;
  df_rows : list LogRow
}.

(** The cell of a row under a column name. *)
Definition cell (name : string) : option (LogRow -> value) :=
  if decide (name = "indices") then Some (fun r => VInt (indices r))
  else if decide (name = "labels") then Some (fun r => VInt (labels r))
  else if decide (name = "predictor_classifiers") then
    Some (fun r => VStr (predictor_classifiers r))
  else if decide (name = "predictor_query_strategies") then
    Some (fun r => VStr (predictor_query_strategies r))
  else if decide (name = "predictor_balance_strategies") then
    Some (fun r => VStr (predictor_balance_strategies r))
  else if decide (name = "predictor_feature_extraction") then
    Some (fun r => VStr (predictor_feature_extraction r))
  else if decide (name = "predictor_training_sets") then
    Some (fun r => VInt (predictor_training_sets r))
  else if decide (name = "labeling_times") then Some labeling_times
  else None.

(** [name in df.columns]. *)
Definition has_column (df : DataFrame) (name : string) : bool :=
  bool_decide (name ∈ df_columns df).

(** [df[name]]: [KeyError] when the frame has no such column. *)
Definition df_getitem (df : DataFrame) (name : string) : result (list value) :=
  if has_column df name then
    match cell name with
    | Some proj => Ok (map proj (df_rows df))
    | None => Raise KeyError
    end
  else Raise KeyError.

(** [len(df)]. *)
Definition df_len (df : DataFrame) : Z := Z.of_nat (length (df_rows df)).

(** [pd.DataFrame(columns=cols)]. *)
Definition df_empty (cols : list string) : DataFrame :=
  {| df_columns := cols; df_rows := [] |}.

(** ** The file handle [self.f]

    [self.f] is a Python object, and the methods of the class use it through
    two interfaces: [_create_new_state_file], [_restore] and
    [_add_settings_metadata] treat it as a [zipfile.ZipFile], while [close],
    [_add_as_data] and [_append_to_dataset] use the interface of an
    [h5py.File] ([attrs], groups, datasets). Both kinds of object are
    modelled; an operation that an object does not have raises what Python
    raises for it. The two assignments to [self.f] in the class, in
    [_create_new_state_file] and in [_restore], store a [zipfile.ZipFile]. *)

(** What an HDF5 dataset holds. The store copies it and never inspects it. *)
Inductive array : Type :=
  | Arr1 (v : list Z)
  | Arr2 (m : list (list Z)).

(** A group below [/data_properties]: its datasets and its attributes. *)
Record Group : Type := mkGroup {
  g_datasets : gmap string array;
  g_attrs : gmap string string
}.

Definition empty_group : Group := {| g_datasets := ∅; g_attrs := ∅ |}.

(** A dataset of the group [results]: what it holds, and what h5py does
    on it. [ds_resize n] is [None] when the dataset can be given the
    length [n] (it is chunked and [n] is within its maximal shape) and
    otherwise the exception that [resize] raises; [ds_fill] is what a
    position added by [resize] holds; [ds_convert v] is [v] as an element
    of the dataset's type, or the exception that writing [v] raises. *)
Record Dataset : Type := mkDataset {
  ds_data : list value;
  ds_fill : value;
  ds_resize : nat -> option exn;
  ds_convert : value -> result value
}.

(** An [h5py.File]: root attributes, the group [/data_properties] (absent
    until created) with one sub-group per data hash, the group [results]
    with one dataset per column, and whether the file is still open. *)
Record H5File : Type := mkH5File {
  h5_attrs : gmap string string;
  h5_data_properties : option (gmap string Group);
  h5_results : option (gmap string Dataset);
  h5_open : bool
}.

(** A [zipfile.ZipFile]: the names of its members and whether it is open. *)
Record ZipFile : Type := mkZipFile {
  zf_namelist : list string;
  zf_open : bool
}.

Inductive FileObj : Type :=
  | H5 (h : H5File)
  | Zip (z : ZipFile).

(** ** The state object *)

Record HDF5State : Type := mkState {
  read_only : bool;
  f : FileObj;
  settings_metadata : gmap string string;
  results : DataFrame;
  (** [self.record_table]; [None] while the attribute has not been set. *)
  record_table : option (list Z)
}.

Definition set_f (o : FileObj) (st : HDF5State) : HDF5State :=
  {| read_only := read_only st; f := o;
     settings_metadata := settings_metadata st;
     results := results st; record_table := record_table st |}.

(** State passing with exceptions: a method returns its result (or the
    exception raised) and the state it leaves behind. *)
Definition M (A : Type) : Type := HDF5State -> result A * HDF5State.

Definition ret {A : Type} (a : A) : M A := fun st => (Ok a, st).

Definition raise {A : Type} (e : exn) : M A := fun st => (Raise e, st).

Definition bind {A B : Type} (m : M A) (k : A -> M B) : M B :=
  fun st =>
    match m st with
    | (Ok a, st') => k a st'
    | (Raise e, st') => (Raise e, st')
    end.

(** Run a method that only reads the state. *)
Definition read {A : Type} (g : HDF5State -> result A) : M A :=
  fun st => (g st, st).

(** [try: m  except e: handler]. *)
Definition try_except {A : Type} (m : M A) (e : exn) (handler : M A) : M A :=
  fun st =>
    match m st with
    | (Raise e', st') => if decide (e' = e) then handler st' else (Raise e', st')
    | r => r
    end.

Notation "x '<-' m ';;' k" := (bind m (fun x => k))
  (at level 100, m at next level, right associativity) : py_scope.
Notation "m ';;' k" := (bind m (fun _ => k))
  (at level 100, right associativity) : py_scope.

(** ** Operations of the file object, as the methods call them *)

Definition set_h5 (h : H5File) (st : HDF5State) : HDF5State := set_f (H5 h) st.

(** Run [k] on the open HDF5 file behind [self.f]. On a [ZipFile], the
    operation fails with [missing], the exception Python raises for an
    attribute or an operator the object does not have; a closed HDF5 file
    refuses the operation with [ValueError]. *)
Definition on_h5 {A : Type} (missing : exn)
    (k : H5File -> HDF5State -> result A * HDF5State) : M A :=
  fun st =>
    match f st with
    | H5 h => if h5_open h then k h st else (Raise ValueError, st)
    | Zip _ => (Raise missing, st)
    end.

(** Item access [self.f[name]] on the file: a [ZipFile] is not
    subscriptable ([TypeError]); on a closed HDF5 file h5py finds no
    object of any name ([KeyError]). *)
Definition on_h5_item {A : Type}
    (k : H5File -> HDF5State -> result A * HDF5State) : M A :=
  fun st =>
    match f st with
    | H5 h => if h5_open h then k h st else (Raise KeyError, st)
    | Zip _ => (Raise TypeError, st)
    end.

(** [self.f.attrs[key] = v]. *)
Definition f_attrs_setitem (key v : string) : M unit :=
  on_h5 AttributeError (fun h st =>
    (Ok tt, set_h5 {| h5_attrs := <[key := v]> (h5_attrs h);
                      h5_data_properties := h5_data_properties h;
                      h5_results := h5_results h;
                      h5_open := h5_open h |} st)).

(** [self.f.close()]: both kinds of file have it, and closing twice is
    allowed. *)
Definition f_close : M unit :=
  fun st =>
    match f st with
    | H5 h => (Ok tt, set_h5 {| h5_attrs := h5_attrs h;
                                h5_data_properties := h5_data_properties h;
                                h5_results := h5_results h;
                                h5_open := false |} st)
    | Zip z => (Ok tt, set_f (Zip {| zf_namelist := zf_namelist z;
                                      zf_open := false |}) st)
    end.

(** Whether the handle is released. *)
Definition f_is_open (st : HDF5State) : bool :=
  match f st with
  | H5 h => h5_open h
  | Zip z => zf_open z
  end.

Definition set_data_properties (dp : gmap string Group) (h : H5File) : H5File :=
  {| h5_attrs := h5_attrs h; h5_data_properties := Some dp;
     h5_results := h5_results h; h5_open := h5_open h |}.

(** [self.f["/data_properties"]]. *)
Definition f_getitem_data_properties : M unit :=
  on_h5_item (fun h st =>
    match h5_data_properties h with
    | Some _ => (Ok tt, st)
    | None => (Raise KeyError, st)
    end).

(** [self.f.create_group("/data_properties")]. *)
Definition f_create_group_data_properties : M unit :=
  on_h5 AttributeError (fun h st =>
    match h5_data_properties h with
    | Some _ => (Raise ValueError, st)
    | None => (Ok tt, set_h5 (set_data_properties ∅ h) st)
    end).

(** Run [k] on the group [/data_properties]. *)
Definition on_data_group {A : Type}
    (k : H5File -> gmap string Group -> HDF5State -> result A * HDF5State) : M A :=
  on_h5 TypeError (fun h st =>
    match h5_data_properties h with
    | Some dp => k h dp st
    | None => (Raise KeyError, st)
    end).

(** [data_group[data_hash]]. *)
Definition data_group_getitem (data_hash : string) : M unit :=
  on_data_group (fun h dp st =>
    match dp !! data_hash with
    | Some _ => (Ok tt, st)
    | None => (Raise KeyError, st)
    end).

(** [data_group.create_group(data_hash)]: h5py refuses the empty name
    and a name that is already taken. *)
Definition data_group_create_group (data_hash : string) : M unit :=
  on_data_group (fun h dp st =>
    if bool_decide (data_hash = "") then (Raise ValueError, st)
    else
      match dp !! data_hash with
      | Some _ => (Raise ValueError, st)
      | None => (Ok tt, set_h5 (set_data_properties (<[data_hash := empty_group]> dp) h) st)
      end).

(** Run [k] on the group [as_data_group] of a data hash. *)
Definition on_as_data_group {A : Type} (data_hash : string)
    (k : H5File -> gmap string Group -> Group -> HDF5State -> result A * HDF5State) : M A :=
  on_data_group (fun h dp st =>
    match dp !! data_hash with
    | Some g => k h dp g st
    | None => (Raise KeyError, st)
    end).

(** [name in as_data_group]. *)
Definition group_contains (data_hash name : string) : M bool :=
  on_as_data_group data_hash (fun h dp g st =>
    (Ok (bool_decide (is_Some (g_datasets g !! name))), st)).

(** [as_data_group.create_dataset(name, data=data)]. h5py first makes an
    array of [data]; [data] is [None] here for an object that has no array
    of a type HDF5 stores, and the conversion then raises [TypeError].
    Only then is the dataset created, and h5py refuses a name that is
    already taken. *)
Definition group_create_dataset (data_hash name : string) (data : option array) : M unit :=
  on_as_data_group data_hash (fun h dp g st =>
    match data with
    | None => (Raise TypeError, st)
    | Some d =>
        match g_datasets g !! name with
        | Some _ => (Raise ValueError, st)
        | None =>
            (Ok tt,
             set_h5 (set_data_properties
                       (<[data_hash := {| g_datasets := <[name := d]> (g_datasets g);
                                          g_attrs := g_attrs g |}]> dp) h) st)
        end
    end).

(** [as_data_group.attrs[key] = v]. *)
Definition group_attrs_setitem (data_hash key v : string) : M unit :=
  on_as_data_group data_hash (fun h dp g st =>
    (Ok tt,
     set_h5 (set_data_properties
               (<[data_hash := {| g_datasets := g_datasets g;
                                  g_attrs := <[key := v]> (g_attrs g) |}]> dp) h) st)).

(** ** OPEN, CLOSE, SAVE, INIT *)

(** [_is_valid_state]: every required column is in the cached table. *)
Definition _is_valid_state (st : HDF5State) : result unit :=
  if forallb (has_column (results st)) RESULTS_TABLE_COLUMNS then Ok tt
  else Raise KeyError.

(** [version]: a missing key surfaces as [AttributeError]. *)
Definition version (st : HDF5State) : result string :=
  match settings_metadata st !! "version" with
  | Some v => Ok v
  | None => Raise AttributeError
  end.

(** [s[0]] of a Python string. *)
Definition str_first (s : string) : result Ascii.ascii :=
  match s with
  | String c _ => Ok c
  | EmptyString => Raise IndexError
  end.

(** [_is_valid_version]. *)
Definition _is_valid_version (st : HDF5State) : result bool :=
  let? v := version st in
  let? c := str_first v in
  let? c' := str_first LATEST_HDF5STATE_VERSION in
  Ok (bool_decide (c = c')).

(** [_create_new_state_file(fp)]. [members] are the names already in the
    archive at [fp] (none for a new file) and [now] is [str(datetime.now())]. *)
Definition _create_new_state_file (members : list string) (now : string) : M unit :=
  fun st =>
    if read_only st then (Raise ValueError, st)
    else
      (Ok tt,
       {| read_only := read_only st;
          f := Zip {| zf_namelist := members ++ ["settings_metadata.json"; "results.sql"];
                      zf_open := true |};
          settings_metadata :=
            <["start_time" := now]> (<["end_time" := ""]> (<["settings" := "{}"]>
              (<["version" := LATEST_HDF5STATE_VERSION]> ∅)));
          results := df_empty RESULTS_TABLE_COLUMNS;
          record_table := record_table st |}).

(** What [_restore] finds at [fp] when [fp] is a zip archive whose
    [results.sql] holds the tables [results] and [record_table]: the
    member names of the archive, the content of [settings_metadata.json]
    if the archive has it, and the two tables. *)
Record Container : Type := mkContainer {
  c_namelist : list string;
  c_settings_metadata : option (gmap string string);
  c_results : DataFrame;
  c_record_table : list Z
}.

(** [_restore(fp)]; [disk] is [None] when [fp] is not a file. *)
Definition _restore (disk : option Container) : M unit :=
  match disk with
  | None => raise StateNotFoundError
  | Some c =>
      (fun st => (Ok tt, set_f (Zip {| zf_namelist := c_namelist c; zf_open := true |}) st)) ;;
      match c_settings_metadata c with
      | None => raise AttributeError
      | Some meta =>
          (fun st =>
             (Ok tt,
              {| read_only := read_only st; f := f st; settings_metadata := meta;
                 results := c_results c;
                 record_table := Some (c_record_table c) |})) ;;
          try_except
            (ok <- read _is_valid_version ;;
             if negb ok then raise ValueError else ret tt)
            AttributeError (raise ValueError) ;;
          read _is_valid_state
      end
  end.

(** [close()]; [now] is the current time as [close] writes it. *)
Definition close (now : string) : M unit :=
  (fun st =>
     if negb (read_only st) then f_attrs_setitem "end_time" now st
     else (Ok tt, st)) ;;
  f_close.

(** [BaseState.__enter__] and [BaseState.__exit__]. *)
Definition __enter__ : M unit := ret tt.

Definition __exit__ (now : string) : M unit := close now.

(** ** PROPERTIES *)

(** [n_records_labeled]. *)
Definition n_records_labeled (st : HDF5State) : Z := df_len (results st).

(** [BaseState.is_empty]. *)
Definition is_empty (st : HDF5State) : bool := bool_decide (n_records_labeled st = 0).

(** [n_priors]: the number of rows whose query strategy is ["prior"], and
    [None] when there is none. *)
Definition n_priors (st : HDF5State) : result (option Z) :=
  let? strategies := df_getitem (results st) "predictor_query_strategies" in
  let n := list_count (VStr "prior") strategies in
  Ok (if bool_decide (n = 0) then None else Some n).

(** [l[n_priors:]]: the whole list when [n_priors] is [None]. *)
Definition slice_from_priors {A : Type} (np : option Z) (l : list A) : list A :=
  match np with
  | None => l
  | Some n => slice_from n l
  end.

(** [column.astype(str)]. *)
Definition astype_str (v : value) : value :=
  match v with
  | VInt z => VStr (str_of_int z)
  | VStr s => VStr s
  | VDatetime us => VStr (str_of_int us)
  end.

(** [model + tr_set] on two cells: defined on two strings. *)
Definition py_add (model tr_set : value) : result string :=
  match model, tr_set with
  | VStr m, VStr t => Ok (m ++ t)
  | _, _ => Raise TypeError
  end.

(** [[model + tr_set for (model, tr_set) in zip(models, tr_sets)]]. *)
Fixpoint model_ids (models tr_sets : list value) : result (list string) :=
  match models, tr_sets with
  | m :: models', t :: tr_sets' =>
      let? id := py_add m t in
      let? ids := model_ids models' tr_sets' in
      Ok (id :: ids)
  | _, _ => Ok []
  end.

(** [n_predictor_models]. *)
Definition n_predictor_models (st : HDF5State) : result Z :=
  let? classifiers := df_getitem (results st) "predictor_classifiers" in
  let? np := n_priors st in
  let predictor_classifiers := slice_from_priors np classifiers in
  let? training_sets := df_getitem (results st) "predictor_training_sets" in
  let? np' := n_priors st in
  let predictor_training_sets := slice_from_priors np' (map astype_str training_sets) in
  let? ids := model_ids predictor_classifiers predictor_training_sets in
  Ok (np_unique_count ids + 1).

(** ** Features, settings_metadata *)

(** [_add_settings_metadata(key, value)]: written through the [ZipFile]
    interface ([getinfo], [writestr]). The dictionary is updated first.
    [writestr] adds a member under the name it is given, also when a member
    of that name exists, and raises [ValueError] on an archive that is
    closed or was opened with mode "r"; the archive has mode "r" exactly
    when the state is read-only ([_restore]). *)
Definition _add_settings_metadata (key v : string) : M unit :=
  fun st =>
    let st' := {| read_only := read_only st; f := f st;
                  settings_metadata := <[key := v]> (settings_metadata st);
                  results := results st; record_table := record_table st |} in
    match f st with
    | Zip z =>
        if zf_open z && negb (read_only st) then
          (Ok tt, set_f (Zip {| zf_namelist := zf_namelist z ++ ["settings_metadata.json"];
                                 zf_open := zf_open z |}) st')
        else (Raise ValueError, st')
    | H5 _ => (Raise AttributeError, st')
    end.

(** [self.f.attrs.pop(key, None)]. *)
Definition f_attrs_pop (key : string) : M unit :=
  on_h5 AttributeError (fun h st =>
    (Ok tt, set_h5 {| h5_attrs := delete key (h5_attrs h);
                      h5_data_properties := h5_data_properties h;
                      h5_results := h5_results h;
                      h5_open := h5_open h |} st)).

(** The setter of [settings]; [dumped] is [json.dumps(vars(settings))]. *)
Definition set_settings (dumped : string) : M unit :=
  f_attrs_pop "settings" ;;
  f_attrs_setitem "settings" dumped.

(** The setter of [current_queries]. The keys are turned into strings;
    [json_dumps] is [json.dumps] on a dictionary of strings. *)
Definition set_current_queries (json_dumps : list (string * string) -> string)
    (current_queries : list (Z * string)) : M unit :=
  let str_queries := map (fun kv => (str_of_int (fst kv), snd kv)) current_queries in
  let data := json_dumps str_queries in
  f_attrs_pop "current_queries" ;;
  f_attrs_setitem "current_queries" data.

(** The argument [as_data]: its record ids and its hash. *)
Record ASReviewData : Type := mkASReviewData {
  record_ids : list Z;
  hash : string
}.

(** The argument [feature_matrix]: a dense [np.ndarray], a sparse
    [csr_matrix], or any other object; of the last, the numeric array
    that numpy makes of it, if it makes one. *)
Inductive FeatureMatrix : Type :=
  | Ndarray (m : list (list Z))
  | CsrMatrix (indptr indices_ : list Z) (shape : Z * Z) (data : list Z)
  | OtherMatrix (m : option (list (list Z))).

(** [_add_as_data(as_data, feature_matrix)]. *)
Definition _add_as_data (as_data : ASReviewData) (feature_matrix : option FeatureMatrix) : M unit :=
  let data_hash := hash as_data in
  try_except f_getitem_data_properties KeyError f_create_group_data_properties ;;
  try_except (data_group_getitem data_hash) KeyError (data_group_create_group data_hash) ;;
  has_table <- group_contains data_hash "record_table" ;;
  (if negb has_table
   then group_create_dataset data_hash "record_table" (Some (Arr1 (record_ids as_data)))
   else ret tt) ;;
  match feature_matrix with
  | None => ret tt
  | Some (Ndarray m) =>
      present <- group_contains data_hash "feature_matrix" ;;
      if present then ret tt
      else
        group_create_dataset data_hash "feature_matrix" (Some (Arr2 m)) ;;
        group_attrs_setitem data_hash "matrix_type" "ndarray"
  | Some (CsrMatrix indptr indices_ shape data) =>
      present <- group_contains data_hash "indptr" ;;
      if present then ret tt
      else
        group_create_dataset data_hash "indptr" (Some (Arr1 indptr)) ;;
        group_create_dataset data_hash "indices" (Some (Arr1 indices_)) ;;
        group_create_dataset data_hash "shape" (Some (Arr1 [fst shape; snd shape])) ;;
        group_create_dataset data_hash "data" (Some (Arr1 data)) ;;
        group_attrs_setitem data_hash "matrix_type" "csr_matrix"
  | Some (OtherMatrix m) =>
      group_create_dataset data_hash "feature_matrix" (option_map Arr2 m) ;;
      group_attrs_setitem data_hash "matrix_type" "unknown"
  end.

(** ** METHODS/FUNC *)

(** [results[dataset]] holding [data] instead of what it held. *)
Definition set_dataset (dataset : string) (ds : Dataset) (data : list value)
    (res : gmap string Dataset) (h : H5File) : H5File :=
  {| h5_attrs := h5_attrs h;
     h5_data_properties := h5_data_properties h;
     h5_results := Some (<[dataset := {| ds_data := data; ds_fill := ds_fill ds;
                                         ds_resize := ds_resize ds;
                                         ds_convert := ds_convert ds |}]> res);
     h5_open := h5_open h |}.

(** [_append_to_dataset(dataset, values)], on the group [results] of the
    file: the dataset is first resized, then the values are written to
    the new positions. When the write raises, the dataset stays resized,
    its new positions holding the fill value. *)
Definition _append_to_dataset (dataset : string) (values : list value) : M unit :=
  on_h5_item (fun h st =>
    match h5_results h with
    | None => (Raise KeyError, st)
    | Some res =>
        match res !! dataset with
        | None => (Raise KeyError, st)
        | Some ds =>
            let cur := ds_data ds in
            match ds_resize ds (length cur + length values)%nat with
            | Some e => (Raise e, st)
            | None =>
                let grown := (cur ++ replicate (length values) (ds_fill ds))%list in
                match map_result (ds_convert ds) values with
                | Raise e => (Raise e, set_h5 (set_dataset dataset ds grown res h) st)
                | Ok written =>
                    (Ok tt, set_h5 (set_dataset dataset ds (cur ++ written)%list res h) st)
                end
            end
        end
    end).

(** [_record_id_to_row_index(record_id)]: the first position of the record
    table that holds [record_id]. *)
Definition _record_id_to_row_index (record_id : Z) (st : HDF5State) : result Z :=
  match record_table st with
  | None => Raise AttributeError
  | Some table =>
      match np_where record_id table with
      | i :: _ => Ok i
      | [] => Raise IndexError
      end
  end.

(** [_row_index_to_record_id(row_index)]. *)
Definition _row_index_to_record_id (row_index : Z) (st : HDF5State) : result Z :=
  match record_table st with
  | None => Raise AttributeError
  | Some table => np_index table row_index
  end.

(** [len(set(lengths))]. *)
Definition n_distinct (lengths : list nat) : nat := length (remove_dups lengths).

(** [add_labeling_data(record_ids, labels, models, methods, training_sets,
    labeling_times)]. *)
Definition add_labeling_data (record_ids labels : list Z) (models methods : list string)
    (training_sets labeling_times : list Z) : M unit :=
  read _is_valid_state ;;
  let lengths := [length record_ids; length labels; length models; length methods;
                  length training_sets; length labeling_times] in
  if negb (bool_decide (n_distinct lengths = 1%nat)) then raise ValueError
  else
    indices <- read (fun st => map_result (fun r => _record_id_to_row_index r st) record_ids) ;;
    _append_to_dataset "indices" (map VInt indices) ;;
    _append_to_dataset "labels" (map VInt labels) ;;
    _append_to_dataset "predictor_models" (map VStr models) ;;
    _append_to_dataset "predictor_methods" (map VStr methods) ;;
    _append_to_dataset "predictor_training_sets" (map VInt training_sets) ;;
    _append_to_dataset "labeling_times" (map VInt labeling_times).

(** [_get_dataset(results_column, query, record_id)]. *)
Definition _get_dataset (results_column : string) (query record_id : option Z)
    (st : HDF5State) : result (list value) :=
  match query, record_id with
  | Some _, Some _ => Raise ValueError
  | _, _ =>
      let? dataset_slice :=
        match query with
        | Some q =>
            if bool_decide (q = 0) then
              let? np := n_priors st in
              match np with
              | Some n => Ok (range n)
              | None => Raise TypeError
              end
            else
              let? np := n_priors st in
              match np with
              | Some n => Ok [q + n - 1]
              | None => Raise TypeError
              end
        | None =>
            match record_id with
            | Some rid =>
                let? idx := _record_id_to_row_index rid st in
                let? col := df_getitem (results st) "indices" in
                Ok (np_where (VInt idx) col)
            | None => Ok (range (n_records_labeled st))
            end
        end in
      let? column := df_getitem (results st) results_column in
      np_take column dataset_slice
  end.

(** [get_order_of_labeling()]. *)
Definition get_order_of_labeling (st : HDF5State) : result (list Z) :=
  let? idxs := _get_dataset "indices" None None st in
  map_result (fun v => match v with
                       | VInt idx => _row_index_to_record_id idx st
                       | _ => Raise TypeError
                       end) idxs.

Definition get_labels (query record_id : option Z) (st : HDF5State) :=
  _get_dataset "labels" query record_id st.

Definition get_predictor_classifiers (query record_id : option Z) (st : HDF5State) :=
  _get_dataset "predictor_classifiers" query record_id st.

Definition get_predictor_query_strategies (query record_id : option Z) (st : HDF5State) :=
  _get_dataset "predictor_query_strategies" query record_id st.

Definition get_predictor_balance_strategies (query record_id : option Z) (st : HDF5State) :=
  _get_dataset "predictor_balance_strategies" query record_id st.

Definition get_predictor_feature_extraction (query record_id : option Z) (st : HDF5State) :=
  _get_dataset "predictor_feature_extraction" query record_id st.

Definition get_predictor_training_sets (query record_id : option Z) (st : HDF5State) :=
  _get_dataset "predictor_training_sets" query record_id st.

(** [datetime.utcfromtimestamp(time/10**6)] on a cell. The division is
    defined on numbers only: on a [str] cell, and on a [datetime], it
    raises [TypeError]. On an [int] the quotient is a float and
    [utcfromtimestamp] is the library's conversion of it, which raises
    for timestamps outside the years that [datetime] has; it is the
    argument [utcfromtimestamp] here, applied to the number of
    microseconds. *)
Definition to_datetime (utcfromtimestamp : Z -> result value) (v : value) : result value :=
  match v with
  | VInt us => utcfromtimestamp us
  | VStr _ => Raise TypeError
  | VDatetime _ => Raise TypeError
  end.

(** [get_labeling_time(query, record_id, format)]. The list comprehension
    converts the cells in order and stops at the first that raises. *)
Definition get_labeling_time (utcfromtimestamp : Z -> result value)
    (query record_id : option Z) (format : string)
    (st : HDF5State) : result (list value) :=
  let? times := _get_dataset "labeling_times" query record_id st in
  let? times :=
    (if bool_decide (format = "datetime")
     then map_result (to_datetime utcfromtimestamp) times
     else Ok times) in
  if bool_decide (query = Some 0) then
    let? np := n_priors st in
    match np with
    | Some n => np_take times [n - 1]
    | None => Raise TypeError
    end
  else Ok times.

(** ** Definitions that follow the words of the specification

    These are not part of the program: they state what the specification
    says a quantity is, to be compared with what the methods compute. *)

Definition is_prior (r : LogRow) : bool :=
  bool_decide (predictor_query_strategies r = "prior").

(** The rows left once the leading rows satisfying [p] are gone. *)
Fixpoint skip_while {A : Type} (p : A -> bool) (l : list A) : list A :=
  match l with
  | [] => []
  | x :: l' => if p x then skip_while p l' else l
  end.

(** The leading rows satisfying [p]. *)
Fixpoint leading_while {A : Type} (p : A -> bool) (l : list A) : list A :=
  match l with
  | [] => []
  | x :: l' => if p x then x :: leading_while p l' else []
  end.

(** The prior block of the specification: the first contiguous run of rows
    whose query strategy is ["prior"]. *)
Definition prior_block (rows : list LogRow) : list LogRow :=
  leading_while is_prior (skip_while (fun r => negb (is_prior r)) rows).

(** The rows that come after the prior block. *)
Definition after_prior_block (rows : list LogRow) : list LogRow :=
  skip_while is_prior (skip_while (fun r => negb (is_prior r)) rows).

(** [n_priors] as the specification words it: unknown when no prior row
    exists, otherwise the length of the first contiguous prior run. *)
Definition n_priors_leading_run (rows : list LogRow) : option Z :=
  let n := Z.of_nat (length (prior_block rows)) in
  if bool_decide (n = 0) then None else Some n.

(** The number of rows whose query strategy is ["prior"], wherever they are. *)
Definition n_prior_rows (rows : list LogRow) : Z :=
  Z.of_nat (length (filter (fun r => is_prior r = true) rows)).

(** The model id that [n_predictor_models] builds for a row, and the pair
    it stands for. *)
Definition row_model_id (r : LogRow) : string :=
  predictor_classifiers r ++ str_of_int (predictor_training_sets r).

Definition row_model_pair (r : LogRow) : string * Z :=
  (predictor_classifiers r, predictor_training_sets r).

(** [n_predictor_models] as the specification words it: the number of
    distinct (classifier, training set) pairs among the non-prior rows,
    plus one. *)
Definition n_predictor_models_pairs (rows : list LogRow) : Z :=
  np_unique_count (map row_model_pair (filter (fun r => is_prior r = false) rows)) + 1.

(** The major version token: what comes before the first dot. *)
Fixpoint major_token (v : string) : string :=
  match v with
  | EmptyString => EmptyString
  | String c v' => if bool_decide (c = Ascii.ascii_of_nat 46) then EmptyString else String c (major_token v')
  end.

(** ** States used in the examples *)

(** The object before a file is opened: only [read_only] is meaningful, the
    other fields are overwritten by [_create_new_state_file] and [_restore]. *)
Definition unopened (ro : bool) : HDF5State :=
  {| read_only := ro; f := Zip {| zf_namelist := []; zf_open := false |};
     settings_metadata := ∅; results := df_empty []; record_table := None |}.

(** A new state file, opened for writing. *)
Definition new_state : HDF5State :=
  snd (_create_new_state_file [] "2021-03-01 10:00:00" (unopened false)).

(** The state restored from a container of the current version holding the
    rows [rows] and the record table [table]. *)
Definition restored (ro : bool) (rows : list LogRow) (table : list Z) : HDF5State :=
  snd (_restore
         (Some {| c_namelist := ["settings_metadata.json"; "results.sql"];
                  c_settings_metadata := Some (<["version" := "1.1"]> ∅);
                  c_results := {| df_columns := RESULTS_TABLE_COLUMNS; df_rows := rows |};
                  c_record_table := table |})
         (unopened ro)).

(** A row of the log with the given classifier, query strategy, training
    set and labeling time, the time being an [int]. *)
Definition log_row (idx : Z) (clf strategy : string) (tr_set time : Z) : LogRow :=
  {| indices := idx; labels := 1; predictor_classifiers := clf;
     predictor_query_strategies := strategy;
     predictor_balance_strategies := "double";
     predictor_feature_extraction := "tfidf";
     predictor_training_sets := tr_set; labeling_times := VInt time |}.

(** A log in which a prior row comes back after a queried row. *)
Definition log_late_prior : HDF5State :=
  restored true
    [ log_row 0 "nb" "prior" (-1) 100; log_row 1 "nb" "max" 1 200;
      log_row 2 "nb" "prior" (-1) 300 ]
    [10; 11; 12].

(** A log of two priors followed by one queried row. *)
Definition log_two_priors : HDF5State :=
  restored true
    [ log_row 0 "nb" "prior" (-1) 100; log_row 1 "nb" "prior" (-1) 200;
      log_row 2 "nb" "max" 2 300 ]
    [10; 11; 12].

(** A log without priors whose two rows use different (classifier,
    training set) pairs with the same concatenation ["nb11"]. *)
Definition log_colliding : HDF5State :=
  restored true
    [ log_row 0 "nb1" "max" 1 100; log_row 1 "nb" "max" 11 200 ]
    [10; 11].

(** A log whose only prior row comes after a queried row. *)
Definition log_prior_after_query : HDF5State :=
  restored true
    [ log_row 0 "nb" "max" 1 100; log_row 1 "nb" "prior" (-1) 200 ]
    [10; 11].

(** A log of one prior row whose labeling time is a [str], as the [TEXT]
    column gives it back. *)
Definition log_text_time : HDF5State :=
  restored true
    [ {| indices := 0; labels := 1; predictor_classifiers := "nb";
         predictor_query_strategies := "prior";
         predictor_balance_strategies := "double";
         predictor_feature_extraction := "tfidf";
         predictor_training_sets := -1;
         labeling_times := VStr "1614592800000000" |} ]
    [10].

(** A record table in which the identifier 10 stands at two positions. *)
Definition table_repeated_id : HDF5State := restored true [] [10; 11; 10].

(** The state restored from a container written by format version 10.0. *)
Definition restored_v10 : HDF5State :=
  snd (_restore
         (Some {| c_namelist := ["settings_metadata.json"; "results.sql"];
                  c_settings_metadata := Some (<["version" := "10.0"]> ∅);
                  c_results := df_empty RESULTS_TABLE_COLUMNS;
                  c_record_table := [] |})
         (unopened true)).



(** An empty dataset that can grow without bound and takes every value. *)
Definition empty_dataset (fill : value) : Dataset :=
  {| ds_data := []; ds_fill := fill; ds_resize := fun _ => None; ds_convert := Ok |}.

(** The datasets that [add_labeling_data] appends to, all empty. *)
Definition empty_labeling_datasets : gmap string Dataset :=
  <["indices" := empty_dataset (VInt 0)]> (<["labels" := empty_dataset (VInt 0)]>
    (<["predictor_models" := empty_dataset (VStr "")]>
      (<["predictor_methods" := empty_dataset (VStr "")]>
        (<["predictor_training_sets" := empty_dataset (VInt 0)]>
          (<["labeling_times" := empty_dataset (VInt 0)]> ∅))))).

(** A state on an open HDF5 file whose group [results] has the datasets
    that [add_labeling_data] appends to. *)
Definition h5_log_state : HDF5State :=
  {| read_only := false;
     f := H5 {| h5_attrs := ∅; h5_data_properties := None;
                h5_results := Some empty_labeling_datasets; h5_open := true |};
     settings_metadata := <["version" := "1.1"]> ∅;
     results := df_empty RESULTS_TABLE_COLUMNS;
     record_table := Some [10; 11; 12] |}.

(** The group that an open HDF5 file holds for a data hash, if any. *)
Definition stored_group (st : HDF5State) (data_hash : string) : option Group :=
  match f st with
  | H5 h =>
      if h5_open h then
        match h5_data_properties h with
        | Some dp => dp !! data_hash
        | None => None
        end
      else None
  | Zip _ => None
  end.

(** The dataset of that name in the group of a data hash. *)
Definition stored_dataset (st : HDF5State) (data_hash name : string) : option array :=
  match stored_group st data_hash with
  | Some g => g_datasets g !! name
  | None => None
  end.

(** A computation that leaves the cached part of the state alone: the
    table [results], the metadata dictionary, the record table and the
    read-only flag, whether it returns or raises. *)
Definition keeps_cache {A : Type} (m : M A) : Prop :=
  forall st,
    results (snd (m st)) = results st
    /\ settings_metadata (snd (m st)) = settings_metadata st
    /\ record_table (snd (m st)) = record_table st
    /\ read_only (snd (m st)) = read_only st.

(** The root attribute of that name of an HDF5 file. *)
Definition file_attr (st : HDF5State) (key : string) : option string :=
  match f st with
  | H5 h => h5_attrs h !! key
  | Zip _ => None
  end.

(** A computation that, whether it returns or raises, keeps every dataset
    stored below [/data_properties] with its content, and leaves the
    groups of the data hashes other than [data_hash] as they are. *)
Definition keeps_stored {A : Type} (data_hash : string) (m : M A) : Prop :=
  forall st r st', m st = (r, st') ->
    (forall h name d, stored_dataset st h name = Some d -> stored_dataset st' h name = Some d)
    /\ (forall h, h <> data_hash -> stored_group st' h = stored_group st h).

(** ** Lists and numpy indexing *)

Section ListFacts.
Context {A : Type} `{EqDecision A}.
Implicit Types (l arr : list A) (x : A).

Lemma list_count_filter x l :
  list_count x l = Z.of_nat (length (filter (fun y => y = x) l)).
Proof.
  induction l as [|y l IH]; [done|].
  cbn [list_count]. rewrite filter_cons.
  destruct (decide (y = x)); cbn [length]; lia.
Qed.

Lemma list_count_bounds x l : 0 <= list_count x l <= Z.of_nat (length l).
Proof.
  induction l as [|y l IH]; cbn [list_count length]; [lia|].
  destruct (decide (y = x)); lia.
Qed.

Lemma np_index_lookup arr i x :
  0 <= i -> arr !! Z.to_nat i = Some x -> np_index arr i = Ok x.
Proof.
  intros Hi Hx. unfold np_index.
  pose proof (lookup_lt_Some _ _ _ Hx) as Hlt.
  rewrite bool_decide_eq_true_2 by lia.
  rewrite (bool_decide_eq_false_2 (i < 0)) by lia.
  by rewrite Hx.
Qed.

Lemma np_index_from_end arr i x :
  i < 0 -> - Z.of_nat (length arr) <= i ->
  arr !! Z.to_nat (Z.of_nat (length arr) + i) = Some x ->
  np_index arr i = Ok x.
Proof.
  intros Hi Hlo Hx. unfold np_index.
  rewrite bool_decide_eq_true_2 by lia.
  rewrite (bool_decide_eq_true_2 (i < 0)) by lia.
  by rewrite Hx.
Qed.

Lemma np_index_out_of_range arr i :
  i < - Z.of_nat (length arr) \/ Z.of_nat (length arr) <= i ->
  np_index arr i = Raise IndexError.
Proof.
  intros Hi. unfold np_index. by rewrite bool_decide_eq_false_2 by lia.
Qed.

(** Indexing with the positions [a, a+1, ..., a+k-1], all inside the
    array, gives the [k] entries from [a] on. *)
Lemma np_take_seqZ arr (a k : nat) :
  (a + k <= length arr)%nat ->
  np_take arr (seqZ (Z.of_nat a) (Z.of_nat k)) = Ok (take k (drop a arr)).
Proof.
  revert a. induction k as [|k IH]; intros a Hle.
  - by rewrite take_0.
  - rewrite seqZ_cons by lia.
    destruct (lookup_lt_is_Some_2 arr a ltac:(lia)) as [x Hx].
    cbn [np_take].
    rewrite (np_index_lookup arr (Z.of_nat a) x) by (rewrite ?Nat2Z.id; done || lia).
    cbn [rbind].
    replace (Z.succ (Z.of_nat a)) with (Z.of_nat (S a)) by lia.
    replace (Z.pred (Z.of_nat (S k))) with (Z.of_nat k) by lia.
    rewrite IH by lia. cbn [rbind].
    rewrite (drop_S _ _ _ Hx). by rewrite <- Nat.add_1_r, <- drop_drop.
Qed.

Lemma np_take_range arr (n : Z) :
  0 <= n <= Z.of_nat (length arr) ->
  np_take arr (range n) = Ok (take (Z.to_nat n) arr).
Proof.
  intros Hn. unfold range.
  pose proof (np_take_seqZ arr 0 (Z.to_nat n)) as H.
  rewrite Z2Nat.id in H by lia. rewrite drop_0 in H. apply H. lia.
Qed.

(** The positions reported by [np_where_from] start at [pos]; the first
    one is the first occurrence. *)
Lemma np_where_from_first x arr (pos : Z) (i : nat) :
  arr !! i = Some x ->
  (forall j y, (j < i)%nat -> arr !! j = Some y -> y <> x) ->
  exists rest, np_where_from x arr pos = (pos + Z.of_nat i) :: rest.
Proof.
  revert pos i. induction arr as [|y arr IH]; intros pos i Hi Hfirst; [done|].
  cbn [np_where_from]. destruct i as [|i].
  - injection Hi as ->. rewrite decide_True by done.
    eexists. f_equal. lia.
  - rewrite decide_False by (apply (Hfirst 0%nat); [lia|done]).
    destruct (IH (pos + 1) i Hi) as [rest Hrest].
    + intros j z Hj Hz. apply (Hfirst (S j)); [lia|done].
    + exists rest. rewrite Hrest. f_equal. lia.
Qed.

Lemma np_where_from_none x arr (pos : Z) :
  x ∉ arr -> np_where_from x arr pos = [].
Proof.
  revert pos. induction arr as [|y arr IH]; intros pos Hx; [done|].
  cbn [np_where_from]. apply not_elem_of_cons in Hx as [Hne Hx].
  rewrite decide_False by done. by apply IH.
Qed.

(** A list has exactly one distinct value iff it is not empty and all
    its entries are the same. *)
Lemma remove_dups_length_one l :
  length (remove_dups l) = 1%nat <-> exists x, x ∈ l /\ forall y, y ∈ l -> y = x.
Proof.
  split.
  - intros Hlen. destruct (remove_dups l) as [|x [|??]] eqn:Heq; try done.
    exists x. split.
    + apply elem_of_remove_dups. rewrite Heq. apply elem_of_cons. by left.
    + intros y Hy. apply elem_of_remove_dups in Hy. rewrite Heq in Hy.
      by apply list_elem_of_singleton in Hy.
  - intros (x & Hx & Hall).
    pose proof (NoDup_remove_dups l) as Hnd.
    assert (forall y, y ∈ remove_dups l -> y = x) as Hall'.
    { intros y Hy. apply Hall. by apply elem_of_remove_dups. }
    apply elem_of_remove_dups in Hx.
    destruct (remove_dups l) as [|a [|b r]]; [by apply elem_of_nil in Hx|done|].
    exfalso. apply NoDup_cons in Hnd as [Hnotin _]. apply Hnotin.
    rewrite (Hall' a), (Hall' b); [apply elem_of_cons; by left|..].
    * apply elem_of_cons. right. apply elem_of_cons. by left.
    * apply elem_of_cons. by left.
Qed.

End ListFacts.

(** ** The cached table *)

Section Table.
Implicit Types (df : DataFrame) (st : HDF5State) (rows : list LogRow).

Lemma df_getitem_length df name col :
  df_getitem df name = Ok col -> length col = length (df_rows df).
Proof.
  unfold df_getitem. destruct (has_column df name); [|done].
  destruct (cell name); [|done]. intros [= <-]. apply length_map.
Qed.

Lemma df_getitem_known df name proj :
  has_column df name = true -> cell name = Some proj ->
  df_getitem df name = Ok (map proj (df_rows df)).
Proof. intros Hc Hp. unfold df_getitem. by rewrite Hc, Hp. Qed.

Lemma df_getitem_missing df name :
  has_column df name = false -> df_getitem df name = Raise KeyError.
Proof. intros Hc. unfold df_getitem. by rewrite Hc. Qed.

(** A valid state has each of the eight columns. *)
Lemma valid_state_has_column st name :
  _is_valid_state st = Ok tt -> name ∈ RESULTS_TABLE_COLUMNS ->
  has_column (results st) name = true.
Proof.
  unfold _is_valid_state. intros Hv Hin.
  destruct (forallb _ _) eqn:Hall; [|done].
  rewrite forallb_forall in Hall. apply Hall. by apply list_elem_of_In.
Qed.

Lemma valid_state_getitem st name :
  _is_valid_state st = Ok tt -> name ∈ RESULTS_TABLE_COLUMNS ->
  exists proj, cell name = Some proj /\
    df_getitem (results st) name = Ok (map proj (df_rows (results st))).
Proof.
  intros Hv Hin. pose proof (valid_state_has_column st name Hv Hin) as Hc.
  unfold RESULTS_TABLE_COLUMNS in Hin.
  repeat (apply elem_of_cons in Hin as [-> | Hin];
          [eexists; split; [reflexivity|by apply df_getitem_known]|]).
  by apply elem_of_nil in Hin.
Qed.

(** Both ways of opening a state file leave a valid state. *)
Lemma create_new_state_file_valid members now st st' :
  _create_new_state_file members now st = (Ok tt, st') -> _is_valid_state st' = Ok tt.
Proof.
  unfold _create_new_state_file. destruct (read_only st); [done|].
  by intros [= <-].
Qed.

Lemma restore_valid disk st st' :
  _restore disk st = (Ok tt, st') -> _is_valid_state st' = Ok tt.
Proof.
  unfold _restore. destruct disk as [c|]; [|done].
  destruct (c_settings_metadata c) as [meta|]; [|done].
  unfold bind, try_except, read, raise, ret. cbn [set_f].
  destruct (_is_valid_version _) as [[|]|e]; cbn [negb];
    try destruct (decide (e = AttributeError)); try done.
  destruct (_is_valid_state _) as [[]|e] eqn:Hv; [|done]. by intros [= <-].
Qed.

Lemma restored_valid ro rows table : _is_valid_state (restored ro rows table) = Ok tt.
Proof. reflexivity. Qed.

Lemma restored_rows ro rows table : df_rows (results (restored ro rows table)) = rows.
Proof. reflexivity. Qed.

End Table.

(** ** The number of priors *)

Section Priors.
Implicit Types (st : HDF5State) (rows : list LogRow).

Lemma count_prior_strategies rows :
  list_count (VStr "prior") (map (fun r => VStr (predictor_query_strategies r)) rows)
  = n_prior_rows rows.
Proof.
  unfold n_prior_rows. induction rows as [|r rows IH]; [done|].
  cbn [map list_count]. rewrite filter_cons. unfold is_prior at 1.
  destruct (decide (bool_decide (predictor_query_strategies r = "prior") = true)) as [Hr|Hr].
  - apply bool_decide_eq_true in Hr.
    rewrite decide_True by (by rewrite Hr). cbn [length]. lia.
  - rewrite decide_False; [lia|].
    intros [= Heq]. apply Hr. by apply bool_decide_eq_true_2.
Qed.

Lemma n_prior_rows_bounds rows : 0 <= n_prior_rows rows <= Z.of_nat (length rows).
Proof.
  unfold n_prior_rows. pose proof (length_filter (fun r => is_prior r = true) rows). lia.
Qed.

(** What [n_priors] computes, for every state. *)
Lemma n_priors_total st :
  n_priors st =
    if has_column (results st) "predictor_query_strategies" then
      Ok (if bool_decide (n_prior_rows (df_rows (results st)) = 0) then None
          else Some (n_prior_rows (df_rows (results st))))
    else Raise KeyError.
Proof.
  unfold n_priors.
  destruct (has_column _ _) eqn:Hc.
  - rewrite (df_getitem_known _ _ (fun r => VStr (predictor_query_strategies r)) Hc eq_refl).
    cbn [rbind]. by rewrite count_prior_strategies.
  - by rewrite df_getitem_missing.
Qed.

Lemma n_priors_Some st n :
  n_priors st = Ok (Some n) ->
  n = n_prior_rows (df_rows (results st)) /\ 1 <= n <= Z.of_nat (length (df_rows (results st))).
Proof.
  rewrite n_priors_total. destruct (has_column _ _); [|done].
  pose proof (n_prior_rows_bounds (df_rows (results st))).
  case_bool_decide; [done|]. intros [= <-]. lia.
Qed.

Lemma n_prior_rows_cons r rows :
  n_prior_rows (r :: rows) = (if is_prior r then 1 else 0) + n_prior_rows rows.
Proof.
  unfold n_prior_rows. rewrite filter_cons.
  destruct (is_prior r) eqn:Hr.
  - rewrite decide_True by done. cbn [length]. lia.
  - rewrite decide_False by done. lia.
Qed.

Lemma n_prior_rows_skip_non_prior rows :
  n_prior_rows (skip_while (fun r => negb (is_prior r)) rows) = n_prior_rows rows.
Proof.
  induction rows as [|r rows IH]; [done|].
  cbn [skip_while]. destruct (is_prior r) eqn:Hr; cbn [negb]; [done|].
  by rewrite IH, n_prior_rows_cons, Hr.
Qed.

Lemma n_prior_rows_leading rows :
  n_prior_rows rows
  = Z.of_nat (length (leading_while is_prior rows)) + n_prior_rows (skip_while is_prior rows).
Proof.
  induction rows as [|r rows IH]; [done|].
  cbn [leading_while skip_while]. destruct (is_prior r) eqn:Hr.
  - rewrite n_prior_rows_cons, Hr, IH. cbn [length]. lia.
  - cbn [length]. lia.
Qed.

Lemma n_prior_rows_zero rows :
  n_prior_rows rows = 0 <-> forallb (fun r => negb (is_prior r)) rows = true.
Proof.
  induction rows as [|r rows IH]; [done|].
  rewrite n_prior_rows_cons. cbn [forallb].
  pose proof (n_prior_rows_bounds rows).
  destruct (is_prior r); cbn [negb andb]; [split; [lia|done]|].
  rewrite <- IH. lia.
Qed.

(** The number of prior rows is the length of the prior block plus the
    number of prior rows that come after it. *)
Lemma n_prior_rows_split rows :
  n_prior_rows rows
  = Z.of_nat (length (prior_block rows)) + n_prior_rows (after_prior_block rows).
Proof.
  unfold prior_block, after_prior_block.
  rewrite <- n_prior_rows_leading. by rewrite n_prior_rows_skip_non_prior.
Qed.

Lemma leading_skip_app {A : Type} (p : A -> bool) (l : list A) :
  (leading_while p l ++ skip_while p l)%list = l.
Proof.
  induction l as [|x l IH]; [done|].
  cbn [leading_while skip_while]. destruct (p x); [|done].
  cbn [app]. by rewrite IH.
Qed.

Lemma leading_while_all {A : Type} (p : A -> bool) (l : list A) :
  Forall (fun x => p x = true) (leading_while p l).
Proof.
  induction l as [|x l IH]; [constructor|].
  cbn [leading_while]. destruct (p x) eqn:Hx; by constructor.
Qed.

(** The first [n_prior_rows] rows are the prior block exactly when all the
    prior rows stand at the head of the log. *)
Lemma prior_block_leading rows n :
  1 <= n -> n = n_prior_rows rows ->
  take (Z.to_nat n) rows = prior_block rows
  <-> forallb (fun r => negb (is_prior r)) (skip_while is_prior rows) = true.
Proof.
  intros Hpos Hn. rewrite <- n_prior_rows_zero. split.
  - intros Htake.
    pose proof (n_prior_rows_bounds rows) as Hb.
    destruct rows as [|r0 rows]; [cbn [length] in Hb; lia|].
    assert (Hr0 : is_prior r0 = true).
    { pose proof (leading_while_all is_prior
                    (skip_while (fun r => negb (is_prior r)) (r0 :: rows))) as Hall.
      fold (prior_block (r0 :: rows)) in Hall. rewrite <- Htake in Hall.
      destruct (Z.to_nat n) as [|k] eqn:Hk; [lia|].
      cbn [take] in Hall. by inversion Hall. }
    pose proof (n_prior_rows_split (r0 :: rows)) as Hsplit.
    rewrite <- Htake, length_take in Hsplit.
    unfold after_prior_block in Hsplit. cbn [skip_while] in Hsplit.
    rewrite Hr0 in Hsplit. cbn [negb] in Hsplit. cbn [skip_while].
    rewrite Hr0. cbn [skip_while] in Hsplit. rewrite Hr0 in Hsplit. lia.
  - intros Hzero.
    pose proof (n_prior_rows_leading rows) as Hlead. rewrite Hzero in Hlead.
    assert (Hblock : prior_block rows = leading_while is_prior rows).
    { unfold prior_block. destruct rows as [|r0 rows]; [done|].
      cbn [skip_while]. destruct (is_prior r0) eqn:Hr0; [done|].
      cbn [leading_while] in Hlead. rewrite Hr0 in Hlead. cbn [length] in Hlead. lia. }
    rewrite Hblock. rewrite <- (leading_skip_app is_prior rows) at 1.
    replace (Z.to_nat n) with (length (leading_while is_prior rows)) by lia.
    apply take_app_length.
Qed.

End Priors.

(** ** Reading a column by query number *)

Section Queries.
Implicit Types (st : HDF5State) (rows : list LogRow) (q n : Z).

(** With a known number of priors, query [0] reads the first [n_priors]
    entries of the column. *)
Lemma get_dataset_query0_known st name proj n :
  n_priors st = Ok (Some n) ->
  has_column (results st) name = true -> cell name = Some proj ->
  _get_dataset name (Some 0) None st
  = Ok (map proj (take (Z.to_nat n) (df_rows (results st)))).
Proof.
  intros Hn Hc Hp. unfold _get_dataset.
  rewrite bool_decide_eq_true_2 by done. rewrite Hn. cbn [rbind].
  rewrite (df_getitem_known _ _ _ Hc Hp). cbn [rbind].
  apply n_priors_Some in Hn as [_ Hn].
  rewrite np_take_range by (rewrite length_map; lia).
  f_equal. symmetry. apply (fmap_take proj).
Qed.

(** A query other than [0] reads one position, [q + n_priors - 1], under
    numpy's indexing rule. *)
Lemma get_dataset_query_nonzero st name proj q n :
  q <> 0 -> n_priors st = Ok (Some n) ->
  has_column (results st) name = true -> cell name = Some proj ->
  _get_dataset name (Some q) None st
  = (let? v := np_index (map proj (df_rows (results st))) (q + n - 1) in Ok [v]).
Proof.
  intros Hq Hn Hc Hp. unfold _get_dataset.
  rewrite bool_decide_eq_false_2 by done. rewrite Hn. cbn [rbind].
  rewrite (df_getitem_known _ _ _ Hc Hp). cbn [rbind np_take].
  by destruct (np_index _ _).
Qed.

(** Without priors, every query fails on the missing number. *)
Lemma get_dataset_query_unknown st name q :
  n_priors st = Ok None -> _get_dataset name (Some q) None st = Raise TypeError.
Proof.
  intros Hn. unfold _get_dataset. rewrite Hn. by case_bool_decide.
Qed.

(** A list comprehension returns when its function returns on every
    element, with the results in order. *)
Lemma map_result_all_ok {A B : Type} (g : A -> result B) (l : list A) :
  (forall x, x ∈ l -> exists y, g x = Ok y) ->
  exists ys, map_result g l = Ok ys /\ Forall2 (fun x y => g x = Ok y) l ys.
Proof.
  induction l as [|x l IH]; intros Hall.
  - exists []. by split; [|constructor].
  - destruct (Hall x) as [y Hy]; [apply elem_of_cons; by left|].
    destruct IH as (ys & Hys & Hall2).
    { intros x' Hx'. apply Hall. apply elem_of_cons. by right. }
    exists (y :: ys). cbn [map_result]. rewrite Hy, Hys. split; [done|by constructor].
Qed.

(** It raises what its function raises on the first element that it does
    not return on. *)
Lemma map_result_first_raise {A B : Type} (g : A -> result B) (l : list A)
    (i : nat) (x : A) (e : exn) :
  l !! i = Some x -> g x = Raise e ->
  (forall (j : nat) y, (j < i)%nat -> l !! j = Some y -> exists z, g y = Ok z) ->
  map_result g l = Raise e.
Proof.
  revert i. induction l as [|x0 l IH]; intros i Hi Hx Hbefore; [done|].
  destruct i as [|i].
  - injection Hi as ->. cbn [map_result]. by rewrite Hx.
  - destruct (Hbefore 0%nat x0) as [z Hz]; [lia|done|].
    cbn [map_result]. rewrite Hz. cbn [rbind].
    rewrite (IH i); [done|done|done|].
    intros j y Hj Hy. apply (Hbefore (S j) y); [lia|done].
Qed.

Lemma np_take_one {A : Type} (arr : list A) (i : Z) (x : A) :
  0 <= i -> arr !! Z.to_nat i = Some x -> np_take arr [i] = Ok [x].
Proof.
  intros Hi Hx. cbn [np_take]. by rewrite (np_index_lookup arr i x Hi Hx).
Qed.

(** The row [n_priors - 1] exists, and it is the last of the first
    [n_priors] rows. *)
Lemma last_prior_row st n :
  n_priors st = Ok (Some n) ->
  exists r, df_rows (results st) !! Z.to_nat (n - 1) = Some r
    /\ take (Z.to_nat n) (df_rows (results st)) !! Z.to_nat (n - 1) = Some r.
Proof.
  intros Hn. apply n_priors_Some in Hn as [_ Hn].
  destruct (lookup_lt_is_Some_2 (df_rows (results st)) (Z.to_nat (n - 1))) as [r Hr]; [lia|].
  exists r. split; [done|]. rewrite lookup_take_lt by lia. done.
Qed.

End Queries.

(** ** The prior block and the queries that address it *)

(** Membership of a literal name in [RESULTS_TABLE_COLUMNS], by evaluation. *)
Ltac required_column := apply (bool_decide_unpack _); vm_compute; exact I.

(** C2, counterexample. In the log [prior, max, prior] the first contiguous
    prior run has length 1, and [n_priors] answers 2, the number of prior
    rows of the whole log. *)
Lemma n_priors_late_prior_counted :
  n_priors log_late_prior = Ok (Some 2)
  /\ n_priors_leading_run (df_rows (results log_late_prior)) = Some 1
  /\ n_priors log_late_prior <> Ok (n_priors_leading_run (df_rows (results log_late_prior))).
Proof. repeat split; [vm_compute; reflexivity .. | vm_compute; discriminate]. Qed.

(** C2, as amended. For every state, [n_priors] is [None] when no row has
    the query strategy "prior", and otherwise the number of all the rows
    that have it, wherever they stand in the log (the table lacking the
    column, the read fails with [KeyError]). That number is the length of
    the first contiguous prior run exactly when no prior row comes after
    that run. *)
Theorem n_priors_counts_all_prior_rows (st : HDF5State) :
  n_priors st =
    (if has_column (results st) "predictor_query_strategies" then
       Ok (if bool_decide (n_prior_rows (df_rows (results st)) = 0) then None
           else Some (n_prior_rows (df_rows (results st))))
     else Raise KeyError)
  /\ (n_prior_rows (df_rows (results st)) = 0
      <-> forallb (fun r => negb (is_prior r)) (df_rows (results st)) = true)
  /\ (n_prior_rows (df_rows (results st))
        = Z.of_nat (length (prior_block (df_rows (results st))))
      <-> forallb (fun r => negb (is_prior r))
            (after_prior_block (df_rows (results st))) = true).
Proof.
  split; [apply n_priors_total|]. split; [apply n_prior_rows_zero|].
  rewrite <- n_prior_rows_zero.
  rewrite (n_prior_rows_split (df_rows (results st))) at 1. lia.
Qed.

(** C4. When no row is a prior, [n_priors] is [None] and the query [0]
    does not return the empty slice: [range(None)] raises [TypeError],
    for every column name. *)
Theorem get_dataset_query0_without_priors (st : HDF5State) (name : string) :
  n_priors st = Ok None ->
  _get_dataset name (Some 0) None st = Raise TypeError
  /\ _get_dataset name (Some 0) None st <> Ok [].
Proof.
  intros Hn. rewrite (get_dataset_query_unknown st name 0 Hn). by split.
Qed.

(** The new, empty state file has no priors, and query [0] on it raises. *)
Lemma get_dataset_query0_without_priors_new_state :
  n_priors new_state = Ok None
  /\ _get_dataset "labels" (Some 0) None new_state = Raise TypeError
  /\ _get_dataset "labels" (Some 0) None new_state <> Ok [].
Proof.
  split; [reflexivity|].
  apply (get_dataset_query0_without_priors new_state "labels"). reflexivity.
Defined.

(** X28. With a known number of priors,
    the query [0] returns the entries of the column at the rows
    [0 .. n_priors - 1], and there are [n_priors] of them. *)
Lemma get_dataset_query0_prior_rows (st : HDF5State) (name : string) (n : Z) :
  _is_valid_state st = Ok tt -> name ∈ RESULTS_TABLE_COLUMNS ->
  n_priors st = Ok (Some n) ->
  exists proj, cell name = Some proj
    /\ _get_dataset name (Some 0) None st
       = Ok (map proj (take (Z.to_nat n) (df_rows (results st))))
    /\ Z.of_nat (length (take (Z.to_nat n) (df_rows (results st)))) = n.
Proof.
  intros Hv Hin Hn.
  destruct (valid_state_getitem st name Hv Hin) as (proj & Hp & _).
  exists proj. split; [done|]. split.
  - apply get_dataset_query0_known; [done| |done]. by apply valid_state_has_column.
  - apply n_priors_Some in Hn as [_ Hn]. rewrite length_take. lia.
Qed.

(** C8, counterexample. With two priors in a log of three rows, the query
    [-1] returns the entry of row 0 and the query [-3] the entry of row 1
    (position [-2] counted from the end): data is returned, and no
    exception is raised. *)
Lemma get_dataset_negative_query_returns :
  _get_dataset "labeling_times" (Some (-1)) None log_two_priors = Ok [VInt 100]
  /\ _get_dataset "labeling_times" (Some (-3)) None log_two_priors = Ok [VInt 200].
Proof. split; vm_compute; reflexivity. Qed.

(** C8, as amended. A negative query is not rejected: with a known number
    of priors [n] it is treated like any other non-zero query and
    addresses the position [q + n - 1] of the column. The call returns
    the single entry at that row when the position is not negative, the
    single entry counted from the end of the column when the position is
    negative and not below minus the number of rows, and fails with
    [IndexError] below that; it never fails with the [ValueError] of the
    argument check. *)
Theorem get_dataset_negative_query (st : HDF5State) (name : string)
    (proj : LogRow -> value) (q n : Z) :
  q < 0 -> n_priors st = Ok (Some n) ->
  has_column (results st) name = true -> cell name = Some proj ->
  (0 <= q + n - 1 ->
     exists r, df_rows (results st) !! Z.to_nat (q + n - 1) = Some r
       /\ _get_dataset name (Some q) None st = Ok [proj r])
  /\ (- Z.of_nat (length (df_rows (results st))) <= q + n - 1 < 0 ->
     exists r, df_rows (results st)
                 !! Z.to_nat (Z.of_nat (length (df_rows (results st))) + (q + n - 1)) = Some r
       /\ _get_dataset name (Some q) None st = Ok [proj r])
  /\ (q + n - 1 < - Z.of_nat (length (df_rows (results st))) ->
     _get_dataset name (Some q) None st = Raise IndexError)
  /\ _get_dataset name (Some q) None st <> Raise ValueError.
Proof.
  intros Hq Hn Hc Hp.
  rewrite (get_dataset_query_nonzero st name proj q n) by (done || lia).
  pose proof (n_priors_Some st n Hn) as [_ Hb].
  set (rows := df_rows (results st)) in *.
  assert (Hpos : 0 <= q + n - 1 ->
    exists r, rows !! Z.to_nat (q + n - 1) = Some r
      /\ np_index (map proj rows) (q + n - 1) = Ok (proj r)).
  { intros H0. destruct (lookup_lt_is_Some_2 rows (Z.to_nat (q + n - 1))) as [r Hr]; [lia|].
    exists r. split; [done|]. apply np_index_lookup; [lia|].
    by rewrite list_lookup_fmap, Hr. }
  assert (Hneg : - Z.of_nat (length rows) <= q + n - 1 < 0 ->
    exists r, rows !! Z.to_nat (Z.of_nat (length rows) + (q + n - 1)) = Some r
      /\ np_index (map proj rows) (q + n - 1) = Ok (proj r)).
  { intros H0.
    destruct (lookup_lt_is_Some_2 rows (Z.to_nat (Z.of_nat (length rows) + (q + n - 1))))
      as [r Hr]; [lia|].
    exists r. split; [done|]. apply np_index_from_end; rewrite ?length_map; [lia..|].
    by rewrite list_lookup_fmap, Hr. }
  repeat split.
  - intros H0. destruct (Hpos H0) as (r & Hr & ->). by exists r.
  - intros H0. destruct (Hneg H0) as (r & Hr & ->). by exists r.
  - intros H0. rewrite np_index_out_of_range; [done|]. rewrite length_map. lia.
  - destruct (np_index _ _) as [v|e] eqn:Hi; [done|].
    cbn [rbind]. intros [= ->].
    unfold np_index in Hi. case_bool_decide; [|done].
    by destruct (map proj rows !! _).
Qed.

(** With two priors in three rows, the query [-3] addresses position [-2] and
    returns the entry of row 1. *)
Lemma get_dataset_negative_query_two_priors :
  _get_dataset "labeling_times" (Some (-3)) None log_two_priors = Ok [VInt 200].
Proof.
  pose proof (get_dataset_negative_query log_two_priors "labeling_times"
                labeling_times (-3) 2
                ltac:(lia) eq_refl eq_refl eq_refl) as (_ & Hneg & _).
  destruct Hneg as (r & Hr & Hget); [vm_compute; split; [discriminate|reflexivity]|].
  vm_compute in Hr. injection Hr as <-. exact Hget.
Defined.

(** C10, counterexample. In the log [max, prior] the number of priors is 1
    and the prior block is the second row. The query [0] of
    [get_labeling_time] returns the time of the first row, which is not a
    prior row, and the query [0] of the other accessors returns the entry
    of that same row, not the prior block. In a log whose prior row has
    its labeling time as a [str], the query [0] with the format
    "datetime" returns nothing: it raises [TypeError]. *)
Lemma get_labeling_time_query0_not_last_prior :
  n_priors log_prior_after_query = Ok (Some 1)
  /\ prior_block (df_rows (results log_prior_after_query))
     = [log_row 1 "nb" "prior" (-1) 200]
  /\ (forall utcfromtimestamp,
        get_labeling_time utcfromtimestamp (Some 0) None "int" log_prior_after_query
        = Ok [VInt 100])
  /\ get_predictor_query_strategies (Some 0) None log_prior_after_query = Ok [VStr "max"]
  /\ n_priors log_text_time = Ok (Some 1)
  /\ (forall utcfromtimestamp,
        get_labeling_time utcfromtimestamp (Some 0) None "datetime" log_text_time
        = Raise TypeError).
Proof. repeat split; intros; vm_compute; reflexivity. Qed.

(** C10, as amended. In a valid state whose number of priors [n] is known,
    [get_labeling_time] called with query [0] and a format other than
    "datetime" returns one entry, the cell of [labeling_times] at the row
    [n - 1], as the table holds it. With the format "datetime" it returns
    one entry, the converted cell of the row [n - 1], when every cell of
    the rows [0 .. n - 1] converts, and otherwise raises what the first of
    these cells that does not convert raises. Each of the other accessors
    returns, for query [0], its column over the rows [0 .. n - 1], which
    are [n] rows. The rows [0 .. n - 1] are the prior block exactly when
    no prior row stands after a row that is not a prior, and the row
    [n - 1] is then the last row of the prior block. *)
Theorem get_labeling_time_query0_single_entry (utcfromtimestamp : Z -> result value)
    (st : HDF5State) (n : Z) (format : string) :
  _is_valid_state st = Ok tt -> n_priors st = Ok (Some n) ->
  (exists r, df_rows (results st) !! Z.to_nat (n - 1) = Some r
     /\ (format <> "datetime" ->
         get_labeling_time utcfromtimestamp (Some 0) None format st
         = Ok [labeling_times r])
     /\ (format = "datetime" ->
         (forall r', r' ∈ take (Z.to_nat n) (df_rows (results st)) ->
            exists d, to_datetime utcfromtimestamp (labeling_times r') = Ok d) ->
         exists d, to_datetime utcfromtimestamp (labeling_times r) = Ok d
           /\ get_labeling_time utcfromtimestamp (Some 0) None format st = Ok [d])
     /\ (forallb (fun r => negb (is_prior r))
           (skip_while is_prior (df_rows (results st))) = true ->
         is_prior r = true /\ last (prior_block (df_rows (results st))) = Some r))
  /\ (format = "datetime" ->
      forall (i : nat) r' e, (i < Z.to_nat n)%nat ->
        df_rows (results st) !! i = Some r' ->
        to_datetime utcfromtimestamp (labeling_times r') = Raise e ->
        (forall (j : nat) r'', (j < i)%nat -> df_rows (results st) !! j = Some r'' ->
           exists d, to_datetime utcfromtimestamp (labeling_times r'') = Ok d) ->
        get_labeling_time utcfromtimestamp (Some 0) None format st = Raise e)
  /\ (take (Z.to_nat n) (df_rows (results st)) = prior_block (df_rows (results st))
      <-> forallb (fun r => negb (is_prior r))
            (skip_while is_prior (df_rows (results st))) = true)
  /\ Z.of_nat (length (take (Z.to_nat n) (df_rows (results st)))) = n
  /\ get_labels (Some 0) None st
     = Ok (map (fun r => VInt (labels r)) (take (Z.to_nat n) (df_rows (results st))))
  /\ get_predictor_classifiers (Some 0) None st
     = Ok (map (fun r => VStr (predictor_classifiers r))
             (take (Z.to_nat n) (df_rows (results st))))
  /\ get_predictor_query_strategies (Some 0) None st
     = Ok (map (fun r => VStr (predictor_query_strategies r))
             (take (Z.to_nat n) (df_rows (results st))))
  /\ get_predictor_balance_strategies (Some 0) None st
     = Ok (map (fun r => VStr (predictor_balance_strategies r))
             (take (Z.to_nat n) (df_rows (results st))))
  /\ get_predictor_feature_extraction (Some 0) None st
     = Ok (map (fun r => VStr (predictor_feature_extraction r))
             (take (Z.to_nat n) (df_rows (results st))))
  /\ get_predictor_training_sets (Some 0) None st
     = Ok (map (fun r => VInt (predictor_training_sets r))
             (take (Z.to_nat n) (df_rows (results st)))).
Proof.
  intros Hv Hn.
  assert (Hcol : forall name, name ∈ RESULTS_TABLE_COLUMNS ->
            has_column (results st) name = true)
    by (intros; by apply valid_state_has_column).
  pose proof (n_priors_Some st n Hn) as [Hrows Hb].
  assert (Hlen : Z.of_nat (length (take (Z.to_nat n) (df_rows (results st)))) = n)
    by (rewrite length_take; lia).
  pose proof (prior_block_leading (df_rows (results st)) n ltac:(lia) Hrows) as Hblock.
  assert (Htimes : _get_dataset "labeling_times" (Some 0) None st
                   = Ok (map labeling_times (take (Z.to_nat n) (df_rows (results st))))).
  { apply get_dataset_query0_known; [done| |reflexivity]. apply Hcol; required_column. }
  destruct (last_prior_row st n Hn) as (r & Hr & Hlast).
  split; [|split; [|split; [done|split; [done|]]]].
  - exists r. split; [done|]. split; [|split].
    + intros Hfmt. unfold get_labeling_time. rewrite Htimes. cbn [rbind].
      rewrite (bool_decide_eq_false_2 (format = "datetime")) by done.
      cbn [rbind]. rewrite bool_decide_eq_true_2 by done. rewrite Hn. cbn [rbind].
      apply np_take_one; [lia|]. by rewrite list_lookup_fmap, Hlast.
    + intros Hfmt Hall.
      destruct (map_result_all_ok (to_datetime utcfromtimestamp)
                  (map labeling_times (take (Z.to_nat n) (df_rows (results st)))))
        as (ds & Hds & Hall2).
      { intros v Hin. apply list_elem_of_fmap in Hin as (r' & -> & Hin). by apply Hall. }
      destruct (Forall2_lookup_l _ _ _ (Z.to_nat (n - 1)) (labeling_times r) Hall2)
        as (d & Hd & Hconv); [by rewrite list_lookup_fmap, Hlast|].
      exists d. split; [done|].
      unfold get_labeling_time. rewrite Htimes. cbn [rbind].
      rewrite (bool_decide_eq_true_2 (format = "datetime")) by done.
      rewrite Hds. cbn [rbind]. rewrite bool_decide_eq_true_2 by done.
      rewrite Hn. cbn [rbind]. by apply np_take_one; [lia|].
    + intros Hlead. apply Hblock in Hlead. split.
      * pose proof (leading_while_all is_prior
                      (skip_while (fun r => negb (is_prior r)) (df_rows (results st))))
          as Hall.
        fold (prior_block (df_rows (results st))) in Hall. rewrite <- Hlead in Hall.
        rewrite Forall_forall in Hall. apply Hall.
        apply list_elem_of_lookup. by exists (Z.to_nat (n - 1)).
      * rewrite <- Hlead, last_lookup, length_take, <- Hlast. f_equal. lia.
  - intros Hfmt i r' e Hi Hr' He Hbefore.
    unfold get_labeling_time. rewrite Htimes. cbn [rbind].
    rewrite (bool_decide_eq_true_2 (format = "datetime")) by done.
    rewrite (map_result_first_raise (to_datetime utcfromtimestamp) _ i
               (labeling_times r') e); [done| |done|].
    + by rewrite list_lookup_fmap, lookup_take_lt, Hr' by done.
    + intros j v Hj Hv'. rewrite list_lookup_fmap, lookup_take_lt in Hv' by lia.
      destruct (df_rows (results st) !! j) as [r''|] eqn:Hr''; [|done].
      injection Hv' as <-. by apply (Hbefore j).
  - unfold get_labels, get_predictor_classifiers, get_predictor_query_strategies,
      get_predictor_balance_strategies, get_predictor_feature_extraction,
      get_predictor_training_sets.
    repeat split;
      (apply get_dataset_query0_known; [done| |reflexivity]);
      apply Hcol; required_column.
Qed.

(** With two priors at the head of the log, the labeling time of query [0]
    is that of row 1, as an integer and as a datetime, while the labels of
    query [0] are those of rows 0 and 1. *)
Lemma get_labeling_time_query0_single_entry_two_priors :
  get_labeling_time (fun us => Ok (VDatetime us)) (Some 0) None "int" log_two_priors
  = Ok [VInt 200]
  /\ get_labeling_time (fun us => Ok (VDatetime us)) (Some 0) None "datetime" log_two_priors
     = Ok [VDatetime 200]
  /\ get_labels (Some 0) None log_two_priors = Ok [VInt 1; VInt 1].
Proof.
  pose proof (get_labeling_time_query0_single_entry (fun us => Ok (VDatetime us))
                log_two_priors 2 "int" eq_refl eq_refl)
    as ((r & Hr & Hint & _) & _ & _ & _ & Hlabels & _).
  pose proof (get_labeling_time_query0_single_entry (fun us => Ok (VDatetime us))
                log_two_priors 2 "datetime" eq_refl eq_refl)
    as ((r' & Hr' & _ & Hdate & _) & _).
  vm_compute in Hr, Hr'. injection Hr as <-. injection Hr' as <-.
  split; [apply Hint; discriminate|]. split; [|exact Hlabels].
  destruct Hdate as (d & Hd & Htime); [reflexivity| |].
  - intros r' Hin. cbn in Hin.
    apply elem_of_cons in Hin as [->|Hin]; [eexists; reflexivity|].
    apply elem_of_cons in Hin as [->|Hin]; [eexists; reflexivity|].
    by apply elem_of_nil in Hin.
  - vm_compute in Hd. injection Hd as <-. exact Htime.
Defined.

(** ** The number of predictor models *)

Section Models.
Implicit Types (st : HDF5State) (rows : list LogRow).

Lemma model_ids_rows rows :
  model_ids (map (fun r => VStr (predictor_classifiers r)) rows)
            (map astype_str (map (fun r => VInt (predictor_training_sets r)) rows))
  = Ok (map row_model_id rows).
Proof.
  induction rows as [|r rows IH]; [done|].
  cbn [map model_ids astype_str py_add rbind]. by rewrite IH.
Qed.

Lemma slice_from_priors_map {A B : Type} (g : A -> B) (np : option Z) (l : list A) :
  slice_from_priors np (map g l) = map g (slice_from_priors np l).
Proof. destruct np; [|done]. symmetry. apply (fmap_drop g). Qed.

(** What [n_predictor_models] computes on a valid state: the number of
    distinct model ids among the rows from position [n_priors] on, plus
    one. *)
Lemma n_predictor_models_ids st np :
  _is_valid_state st = Ok tt -> n_priors st = Ok np ->
  n_predictor_models st
  = Ok (np_unique_count (map row_model_id (slice_from_priors np (df_rows (results st)))) + 1).
Proof.
  intros Hv Hn. unfold n_predictor_models.
  rewrite (df_getitem_known _ "predictor_classifiers"
             (fun r => VStr (predictor_classifiers r)))
    by first [reflexivity | apply valid_state_has_column; [done|required_column]].
  rewrite (df_getitem_known _ "predictor_training_sets"
             (fun r => VInt (predictor_training_sets r)))
    by first [reflexivity | apply valid_state_has_column; [done|required_column]].
  rewrite Hn. cbn [rbind].
  rewrite !slice_from_priors_map. by rewrite model_ids_rows.
Qed.

(** Two keys that identify the same entries of a list have the same
    number of distinct values on it. *)
Lemma remove_dups_length_kernel {A B C : Type} `{EqDecision B} `{EqDecision C}
    (g : A -> B) (h : A -> C) (l : list A) :
  (forall x y, x ∈ l -> y ∈ l -> g x = g y <-> h x = h y) ->
  length (remove_dups (map g l)) = length (remove_dups (map h l)).
Proof.
  induction l as [|x l IH]; intros Hk; [done|].
  assert (Hin : g x ∈ map g l <-> h x ∈ map h l).
  { split; intros (y & Heq & Hy)%list_elem_of_fmap; apply list_elem_of_fmap;
      exists y; (split; [|done]); apply (Hk x y); try done.
    all: try (apply elem_of_cons; by left).
    all: apply elem_of_cons; by right. }
  assert (IH' : length (remove_dups (map g l)) = length (remove_dups (map h l))).
  { apply IH. intros a b Ha Hb. apply Hk; apply elem_of_cons; by right. }
  cbn [map remove_dups].
  destruct (decide_rel elem_of (g x) (map g l)) as [Hg|Hg];
    destruct (decide_rel elem_of (h x) (map h l)) as [Hh|Hh]; cbn [length];
    first [done | by rewrite IH' | by apply Hin in Hg | by apply Hin in Hh].
Qed.

Lemma filter_non_prior_all rows :
  forallb (fun r => negb (is_prior r)) rows = true ->
  filter (fun r => is_prior r = false) rows = rows.
Proof.
  induction rows as [|r rows IH]; [done|].
  cbn [forallb]. intros [Hr Hrest]%andb_prop.
  rewrite filter_cons, decide_True by (by destruct (is_prior r)).
  f_equal. by apply IH.
Qed.

(** When the prior rows are exactly the leading rows of the log, the rows
    from position [n_priors] on are the non-prior rows. *)
Lemma rows_after_leading_priors rows :
  forallb (fun r => negb (is_prior r)) (skip_while is_prior rows) = true ->
  drop (Z.to_nat (n_prior_rows rows)) rows = filter (fun r => is_prior r = false) rows.
Proof.
  induction rows as [|r rows IH]; intros Hrest; [done|].
  rewrite n_prior_rows_cons, filter_cons. cbn [skip_while] in Hrest.
  pose proof (n_prior_rows_bounds rows) as Hb.
  destruct (is_prior r) eqn:Hr.
  - rewrite decide_False by done.
    replace (Z.to_nat (1 + n_prior_rows rows)) with (S (Z.to_nat (n_prior_rows rows))) by lia.
    cbn [drop]. by apply IH.
  - rewrite decide_True by done.
    assert (Hz : n_prior_rows (r :: rows) = 0) by (by apply n_prior_rows_zero).
    rewrite n_prior_rows_cons, Hr in Hz. rewrite Hz.
    change (Z.to_nat 0) with 0%nat. rewrite drop_0. f_equal.
    cbn [forallb] in Hrest. apply andb_prop in Hrest as [_ Hrest].
    symmetry. by apply filter_non_prior_all.
Qed.

(** X27. On a valid log whose priors are its leading rows and on which no two
    distinct (classifier, training set) pairs have the same model id,
    [n_predictor_models] is the number of distinct pairs among the
    non-prior rows, plus one. *)
Lemma n_predictor_models_distinct_pairs st :
  _is_valid_state st = Ok tt ->
  forallb (fun r => negb (is_prior r)) (skip_while is_prior (df_rows (results st))) = true ->
  (forall r1 r2, r1 ∈ df_rows (results st) -> r2 ∈ df_rows (results st) ->
     row_model_id r1 = row_model_id r2 -> row_model_pair r1 = row_model_pair r2) ->
  n_predictor_models st = Ok (n_predictor_models_pairs (df_rows (results st))).
Proof.
  intros Hv Hprefix Hinj.
  pose proof (n_priors_total st) as Hn.
  rewrite (valid_state_has_column st "predictor_query_strategies" Hv) in Hn
    by required_column.
  rewrite (n_predictor_models_ids st _ Hv Hn).
  f_equal. unfold n_predictor_models_pairs, np_unique_count. f_equal. f_equal.
  assert (Hslice : slice_from_priors
            (if bool_decide (n_prior_rows (df_rows (results st)) = 0) then None
             else Some (n_prior_rows (df_rows (results st)))) (df_rows (results st))
          = filter (fun r => is_prior r = false) (df_rows (results st))).
  { rewrite <- (rows_after_leading_priors _ Hprefix).
    case_bool_decide as Hz; [by rewrite Hz|done]. }
  rewrite Hslice.
  apply (remove_dups_length_kernel row_model_id row_model_pair).
  intros r1 r2 [_ H1]%list_elem_of_filter [_ H2]%list_elem_of_filter. split.
  - by apply Hinj.
  - unfold row_model_id, row_model_pair. by intros [= -> ->].
Qed.

End Models.

(** C3. On the log of two queried rows ("nb1", 1) and ("nb", 11), which has
    two distinct (classifier, training set) pairs and no prior, the claim
    asks for 3 and [n_predictor_models] returns 2: both pairs are turned
    into the same model id "nb11". *)
Theorem n_predictor_models_colliding_ids :
  n_predictor_models log_colliding = Ok 2
  /\ n_predictor_models_pairs (df_rows (results log_colliding)) = 3
  /\ map row_model_id (df_rows (results log_colliding)) = ["nb11"; "nb11"]
  /\ forallb (fun r => negb (is_prior r)) (df_rows (results log_colliding)) = true.
Proof. repeat split; vm_compute; reflexivity. Qed.

(** ** The record table *)

Section RecordIndex.
Implicit Types (st : HDF5State) (table : list Z) (i : Z).

(** Translating a position to its record id and back gives the first
    position that holds the same id. *)
Lemma record_index_first_match st table (i j : nat) (rid : Z) :
  record_table st = Some table ->
  table !! i = Some rid -> table !! j = Some rid ->
  (forall k y, (k < j)%nat -> table !! k = Some y -> y <> rid) ->
  (let? r := _row_index_to_record_id (Z.of_nat i) st in _record_id_to_row_index r st)
  = Ok (Z.of_nat j).
Proof.
  intros Ht Hi Hj Hfirst. unfold _row_index_to_record_id, _record_id_to_row_index.
  rewrite Ht. rewrite (np_index_lookup table (Z.of_nat i) rid) by (rewrite ?Nat2Z.id; done || lia).
  cbn [rbind]. unfold np_where.
  destruct (np_where_from_first rid table 0 j Hj Hfirst) as [rest ->].
  f_equal.
Qed.

End RecordIndex.

(** C6, counterexample. In the record table [10, 11, 10], which [_restore]
    accepts, position 2 holds the identifier 10, and the way back from 10
    stops at position 0, the first that holds it: the round trip from
    position 2 yields 0. *)
Lemma record_index_round_trip_repeated_id :
  record_table table_repeated_id = Some [10; 11; 10]
  /\ _is_valid_state table_repeated_id = Ok tt
  /\ _row_index_to_record_id 2 table_repeated_id = Ok 10
  /\ _record_id_to_row_index 10 table_repeated_id = Ok 0
  /\ (let? rid := _row_index_to_record_id 2 table_repeated_id in
      _record_id_to_row_index rid table_repeated_id) = Ok 0
  /\ (let? rid := _row_index_to_record_id 2 table_repeated_id in
      _record_id_to_row_index rid table_repeated_id) <> Ok 2.
Proof. repeat split; try (vm_compute; reflexivity). vm_compute. discriminate. Qed.

(** C6, as amended. For every record table whose identifiers are pairwise
    distinct and every row position [i] within it, translating [i] to
    its record identifier and back yields [i]. (With an identifier
    repeated, the way back stops at its first position, see
    [record_index_first_match].) *)
Theorem record_index_round_trip (st : HDF5State) (table : list Z) (i : Z) :
  record_table st = Some table -> NoDup table ->
  0 <= i < Z.of_nat (length table) ->
  (let? rid := _row_index_to_record_id i st in _record_id_to_row_index rid st) = Ok i.
Proof.
  intros Ht Hnd Hi.
  destruct (lookup_lt_is_Some_2 table (Z.to_nat i)) as [rid Hrid]; [lia|].
  rewrite <- (Z2Nat.id i) at 1 2 by lia.
  apply (record_index_first_match st table (Z.to_nat i) (Z.to_nat i) rid); try done.
  intros k y Hk Hy ->.
  pose proof (NoDup_lookup table k (Z.to_nat i) rid Hnd Hy Hrid). lia.
Qed.

(** Position 2 of the record table [10, 11, 12]. *)
Lemma record_index_round_trip_example :
  (let? rid := _row_index_to_record_id 2 log_two_priors in
   _record_id_to_row_index rid log_two_priors) = Ok 2.
Proof.
  apply (record_index_round_trip log_two_priors [10; 11; 12] 2).
  - reflexivity.
  - apply (bool_decide_unpack _). vm_compute. exact I.
  - vm_compute. split; [discriminate|reflexivity].
Defined.

(** ** Appending to the log *)

Section Append.

Lemma n_distinct_one (a b c d e g : nat) :
  n_distinct [a; b; c; d; e; g] = 1%nat -> a = b /\ b = c /\ c = d /\ d = e /\ e = g.
Proof.
  unfold n_distinct. intros (x & _ & Hall)%remove_dups_length_one.
  assert (Hx : forall y, y ∈ [a; b; c; d; e; g] -> y = x) by done.
  rewrite (Hx a), (Hx b), (Hx c), (Hx d), (Hx e), (Hx g); [done|set_solver..].
Qed.

(** Whatever the arguments, a table that lacks a column makes
    [add_labeling_data] raise [KeyError] before it looks at them. *)
Lemma add_labeling_data_missing_column (st : HDF5State)
    (record_ids labels : list Z) (models methods : list string)
    (training_sets labeling_times : list Z) :
  _is_valid_state st = Raise KeyError ->
  add_labeling_data record_ids labels models methods training_sets labeling_times st
  = (Raise KeyError, st).
Proof. intros Hv. unfold add_labeling_data, bind, read. by rewrite Hv. Qed.

End Append.

(** C1. On a state whose table has all its columns (every state that
    [_create_new_state_file] or [_restore] has opened), a call of
    [add_labeling_data] whose six sequences do not all have the same
    length raises [ValueError] and leaves the state as it was: the number
    of labeled records and every column are those from before the call. *)
Theorem add_labeling_data_unequal_lengths (st : HDF5State)
    (record_ids labels : list Z) (models methods : list string)
    (training_sets labeling_times : list Z) :
  _is_valid_state st = Ok tt ->
  ~ (length record_ids = length labels /\ length labels = length models
     /\ length models = length methods /\ length methods = length training_sets
     /\ length training_sets = length labeling_times) ->
  add_labeling_data record_ids labels models methods training_sets labeling_times st
  = (Raise ValueError, st)
  /\ n_records_labeled
       (snd (add_labeling_data record_ids labels models methods training_sets
               labeling_times st))
     = n_records_labeled st
  /\ forall name,
       df_getitem
         (results (snd (add_labeling_data record_ids labels models methods training_sets
                          labeling_times st))) name
       = df_getitem (results st) name.
Proof.
  intros Hv Hlen.
  assert (Hcall : add_labeling_data record_ids labels models methods training_sets
                    labeling_times st = (Raise ValueError, st)).
  { unfold add_labeling_data, bind, read. rewrite Hv.
    rewrite bool_decide_eq_false_2; [done|].
    intros Hone. apply Hlen. by apply n_distinct_one. }
  rewrite Hcall. by repeat split.
Qed.

(** Two record ids with a single label, on the new state file. *)
Lemma add_labeling_data_unequal_lengths_new_state :
  add_labeling_data [10; 11] [1] ["nb"; "nb"] ["max"; "max"] [1; 1] [100; 200] new_state
  = (Raise ValueError, new_state).
Proof.
  apply (add_labeling_data_unequal_lengths new_state
           [10; 11] [1] ["nb"; "nb"] ["max"; "max"] [1; 1] [100; 200]).
  - reflexivity.
  - simpl. lia.
Defined.

(** ** The version gate *)

Section Version.
Implicit Types (st : HDF5State) (v : string).

(** What [_is_valid_version] computes: the comparison of the first
    character of the version with the first character of "1.1". *)
Lemma is_valid_version_first_character st c v :
  settings_metadata st !! "version" = Some (String c v) ->
  _is_valid_version st = Ok (bool_decide (c = Ascii.ascii_of_nat 49)).
Proof.
  intros Hv. unfold _is_valid_version, version. rewrite Hv. reflexivity.
Qed.

Lemma is_valid_version_empty st :
  settings_metadata st !! "version" = Some "" ->
  _is_valid_version st = Raise IndexError.
Proof. intros Hv. unfold _is_valid_version, version. by rewrite Hv. Qed.

(** X30. On a version whose major token is a single character, the check is
    the comparison of the major tokens. *)
Lemma is_valid_version_one_character_major st v :
  settings_metadata st !! "version" = Some v ->
  String.length (major_token v) = 1%nat ->
  _is_valid_version st
  = Ok (bool_decide (major_token v = major_token LATEST_HDF5STATE_VERSION)).
Proof.
  intros Hv Hlen. destruct v as [|c v]; [done|].
  rewrite (is_valid_version_first_character st c v Hv). f_equal.
  cbn [major_token] in *. case_bool_decide as Hdot; [done|].
  destruct (major_token v); [|done].
  change (major_token LATEST_HDF5STATE_VERSION) with (String (Ascii.ascii_of_nat 49) "").
  apply bool_decide_ext. split; [by intros ->|by intros [= ->]].
Qed.

End Version.

(** C5. A container of format version "10.0" passes the check against the
    supported version "1.1", and [_restore] opens it, although the major
    tokens "10" and "1" differ: the check compares the first characters
    of the two strings, not the components before the first dot. *)
Theorem is_valid_version_accepts_major_10 :
  version restored_v10 = Ok "10.0"
  /\ _is_valid_version restored_v10 = Ok true
  /\ major_token "10.0" = "10"
  /\ major_token LATEST_HDF5STATE_VERSION = "1"
  /\ major_token "10.0" <> major_token LATEST_HDF5STATE_VERSION
  /\ fst (_restore
            (Some {| c_namelist := ["settings_metadata.json"; "results.sql"];
                     c_settings_metadata := Some (<["version" := "10.0"]> ∅);
                     c_results := df_empty RESULTS_TABLE_COLUMNS;
                     c_record_table := [] |})
            (unopened true)) = Ok tt.
Proof. repeat split; try (vm_compute; reflexivity). vm_compute. discriminate. Qed.

(** ** Closing the state *)

Section Close.
Implicit Types (st : HDF5State) (now : string).

(** Both ways of opening a state file store an open [ZipFile] in
    [self.f]. *)
Lemma create_new_state_file_handle members now st st' :
  _create_new_state_file members now st = (Ok tt, st') ->
  exists z, f st' = Zip z /\ zf_open z = true.
Proof.
  unfold _create_new_state_file. destruct (read_only st); [done|].
  intros [= <-]. by eexists.
Qed.

Lemma restore_handle disk st st' :
  _restore disk st = (Ok tt, st') -> exists z, f st' = Zip z /\ zf_open z = true.
Proof.
  unfold _restore. destruct disk as [c|]; [|done].
  destruct (c_settings_metadata c) as [meta|]; [|done].
  unfold bind, try_except, read, raise, ret. cbn [set_f].
  destruct (_is_valid_version _) as [[|]|e]; cbn [negb];
    try destruct (decide (e = AttributeError)); try done.
  destruct (_is_valid_state _) as [[]|e]; [|done]. intros [= <-]. by eexists.
Qed.

(** X29. In read-only mode [close] releases the handle, whatever its kind,
    and changes nothing else. *)
Lemma close_read_only st now :
  read_only st = true ->
  fst (close now st) = Ok tt
  /\ f_is_open (snd (close now st)) = false
  /\ settings_metadata (snd (close now st)) = settings_metadata st
  /\ results (snd (close now st)) = results st
  /\ record_table (snd (close now st)) = record_table st
  /\ match f st, f (snd (close now st)) with
     | H5 h, H5 h' =>
         h5_attrs h' = h5_attrs h /\ h5_data_properties h' = h5_data_properties h
         /\ h5_results h' = h5_results h
     | Zip z, Zip z' => zf_namelist z' = zf_namelist z
     | _, _ => False
     end.
Proof.
  intros Hro. unfold close, bind, f_close. rewrite Hro. cbn [negb].
  by destruct (f st).
Qed.

(** On an open HDF5 file, [close] in write mode records the end time
    and releases the handle. *)
Lemma close_h5_writable st h now :
  f st = H5 h -> h5_open h = true -> read_only st = false ->
  exists h', close now st = (Ok tt, set_f (H5 h') st)
    /\ h5_attrs h' = <["end_time" := now]> (h5_attrs h)
    /\ h5_open h' = false.
Proof.
  intros Hf Hopen Hro.
  unfold close, bind, f_attrs_setitem, on_h5, f_close. rewrite Hro, Hf, Hopen.
  cbn. by eexists.
Qed.

End Close.

(** C9. On a state opened for writing by this class, whose handle is the
    [ZipFile] that [_create_new_state_file] and [_restore] store in
    [self.f], [close] raises [AttributeError] on [self.f.attrs] and stops
    there: no end time is written and the handle is not released. The
    same holds on leaving a [with] block, since [__exit__] is [close]. *)
Theorem close_writable_zip (st : HDF5State) (z : ZipFile) (now : string) :
  f st = Zip z -> read_only st = false ->
  close now st = (Raise AttributeError, st)
  /\ __exit__ now st = (Raise AttributeError, st)
  /\ f_is_open (snd (close now st)) = zf_open z.
Proof.
  intros Hf Hro.
  assert (Hclose : close now st = (Raise AttributeError, st)).
  { unfold close, bind, f_attrs_setitem, on_h5. by rewrite Hro, Hf. }
  unfold __exit__. rewrite Hclose. split; [done|split; [done|]].
  cbn [snd]. unfold f_is_open. by rewrite Hf.
Qed.

(** The new state file, opened for writing, stays open when [close] raises. *)
Lemma close_writable_new_state :
  close "2021-03-01 11:00:00" new_state = (Raise AttributeError, new_state)
  /\ f_is_open new_state = true.
Proof.
  pose proof (close_writable_zip new_state
                {| zf_namelist := ["settings_metadata.json"; "results.sql"]; zf_open := true |}
                "2021-03-01 11:00:00" eq_refl eq_refl) as (Hclose & _ & Hopen).
  split; [exact Hclose|]. rewrite Hclose in Hopen. exact Hopen.
Defined.

(** ** The feature store *)

Section FeatureStore.
Implicit Types (st : HDF5State) (a : ASReviewData) (fm : option FeatureMatrix).


End FeatureStore.




(** * Further properties of the state *)

(** ** Opening a state file *)

(** X1. A state file that [_create_new_state_file] has created holds an
    empty log with the current version: the caller was not read-only, no
    record is labeled, the number of priors is unknown, the prior block
    is the only model, the version and the table are accepted, and the
    record table is what it was before (the method does not set it). In
    read-only mode the method raises [ValueError] and changes nothing. *)
Theorem create_new_state_file_empty_log (members : list string) (now : string)
    (st st' : HDF5State) :
  _create_new_state_file members now st = (Ok tt, st') ->
  read_only st = false /\ read_only st' = false
  /\ n_records_labeled st' = 0 /\ is_empty st' = true
  /\ n_priors st' = Ok None /\ n_predictor_models st' = Ok 1
  /\ version st' = Ok LATEST_HDF5STATE_VERSION
  /\ _is_valid_version st' = Ok true /\ _is_valid_state st' = Ok tt
  /\ settings_metadata st' !! "end_time" = Some ""
  /\ settings_metadata st' !! "start_time" = Some now
  /\ record_table st' = record_table st
  /\ forall st0, read_only st0 = true ->
       _create_new_state_file members now st0 = (Raise ValueError, st0).
Proof.
  unfold _create_new_state_file. destruct (read_only st) eqn:Hro; [done|].
  intros [= <-]. repeat split; try reflexivity.
  intros st0 Hro0. by rewrite Hro0.
Qed.

(** The file created from the unopened object. *)
Lemma create_new_state_file_empty_log_example :
  n_records_labeled new_state = 0 /\ n_predictor_models new_state = Ok 1.
Proof.
  pose proof (create_new_state_file_empty_log [] "2021-03-01 10:00:00"
                (unopened false) new_state eq_refl) as (_ & _ & Hn & _ & _ & Hm & _).
  split; [exact Hn|exact Hm].
Defined.

(** X3. Whenever the file exists, [_restore] leaves an open [ZipFile] with
    the members of the container in [self.f], whether it returns or
    raises (it never closes the archive it opened), and it keeps the
    read-only flag. When it returns, the cached tables and the metadata
    are those of the container. *)
Theorem restore_leaves_archive_open (c : Container) (st : HDF5State) :
  f (snd (_restore (Some c) st)) = Zip {| zf_namelist := c_namelist c; zf_open := true |}
  /\ read_only (snd (_restore (Some c) st)) = read_only st
  /\ (fst (_restore (Some c) st) = Ok tt ->
      results (snd (_restore (Some c) st)) = c_results c
      /\ record_table (snd (_restore (Some c) st)) = Some (c_record_table c)
      /\ c_settings_metadata c = Some (settings_metadata (snd (_restore (Some c) st)))
      /\ n_records_labeled (snd (_restore (Some c) st))
         = Z.of_nat (length (df_rows (c_results c)))).
Proof.
  unfold _restore. destruct (c_settings_metadata c) as [meta|]; [|done].
  unfold bind, try_except, read, raise, ret. cbn [set_f].
  destruct (_is_valid_version _) as [[|]|e]; cbn [negb];
    try destruct (decide (e = AttributeError)); try done.
Qed.

(** ** Quantities derived from the log *)

(** X4. When the number of priors is known, it is at least 1, it does not
    exceed the number of labeled records, and it is the number of rows
    whose query strategy is "prior"; it is never 0. *)
Theorem n_priors_within_log (st : HDF5State) (n : Z) :
  n_priors st = Ok (Some n) ->
  1 <= n <= n_records_labeled st
  /\ n = n_prior_rows (df_rows (results st))
  /\ n_priors st <> Ok (Some 0).
Proof.
  intros Hn. destruct (n_priors_Some st n Hn) as [Heq Hb].
  unfold n_records_labeled, df_len. repeat split; try lia.
  rewrite Hn. intros [= ->]. lia.
Qed.

(** The log of two priors and one queried row. *)
Lemma n_priors_within_log_example : 1 <= 2 <= n_records_labeled log_two_priors.
Proof.
  apply (n_priors_within_log log_two_priors 2). reflexivity.
Defined.

Section ModelCount.
Implicit Types (st : HDF5State).

Lemma remove_dups_length_le {A : Type} `{EqDecision A} (l : list A) :
  (length (remove_dups l) <= length l)%nat.
Proof.
  induction l as [|x l IH]; [done|].
  cbn [remove_dups]. destruct (decide_rel elem_of x l); cbn [length]; lia.
Qed.

Lemma slice_from_priors_length {A : Type} (np : option Z) (l : list A) :
  (length (slice_from_priors np l) <= length l)%nat.
Proof.
  destruct np as [n|]; [|done]. unfold slice_from_priors, slice_from.
  rewrite length_drop. lia.
Qed.

End ModelCount.

(** X5. On a state whose table has its columns, [n_predictor_models]
    always returns, and what it returns is at least 1 (the prior block,
    also when there is no prior) and at most the number of rows that
    follow the first [n_priors] rows, plus one. *)
Theorem n_predictor_models_bounds (st : HDF5State) :
  _is_valid_state st = Ok tt ->
  exists k, n_predictor_models st = Ok k
    /\ 1 <= k <= n_records_labeled st - n_prior_rows (df_rows (results st)) + 1.
Proof.
  intros Hv.
  pose proof (n_priors_total st) as Hn.
  rewrite (valid_state_has_column st "predictor_query_strategies" Hv) in Hn
    by required_column.
  rewrite (n_predictor_models_ids st _ Hv Hn).
  eexists. split; [reflexivity|].
  unfold np_unique_count, n_records_labeled, df_len.
  set (rows := df_rows (results st)).
  pose proof (n_prior_rows_bounds rows) as Hb.
  match goal with |- context [remove_dups ?l] => pose proof (remove_dups_length_le l) as Hle end.
  rewrite length_map in Hle.
  case_bool_decide as Hz; cbn [slice_from_priors] in *.
  - lia.
  - unfold slice_from in *. rewrite length_drop in Hle. lia.
Qed.

(** The restored log of two priors and one queried row has two models. *)
Lemma n_predictor_models_bounds_example :
  exists k, n_predictor_models log_two_priors = Ok k
    /\ 1 <= k <= n_records_labeled log_two_priors
                 - n_prior_rows (df_rows (results log_two_priors)) + 1.
Proof. apply (n_predictor_models_bounds log_two_priors). reflexivity. Defined.

(** ** Reading the log *)

Section Reading.
Implicit Types (st : HDF5State) (rows : list LogRow).

Lemma get_dataset_all st name proj :
  has_column (results st) name = true -> cell name = Some proj ->
  _get_dataset name None None st = Ok (map proj (df_rows (results st))).
Proof.
  intros Hc Hp. unfold _get_dataset. cbn [rbind].
  rewrite (df_getitem_known _ _ _ Hc Hp). cbn [rbind].
  unfold n_records_labeled, df_len.
  rewrite np_take_range by (rewrite length_map; lia).
  by rewrite Nat2Z.id, <- (length_map proj), take_ge by lia.
Qed.

(** A query [k >= 1] whose position [n + k - 1] is inside the log. *)
Lemma get_dataset_query_inside st name proj (n k : Z) (r : LogRow) :
  n_priors st = Ok (Some n) -> 1 <= k ->
  has_column (results st) name = true -> cell name = Some proj ->
  df_rows (results st) !! Z.to_nat (n + k - 1) = Some r ->
  _get_dataset name (Some k) None st = Ok [proj r].
Proof.
  intros Hn Hk Hc Hp Hr.
  rewrite (get_dataset_query_nonzero st name proj k n) by (done || lia).
  pose proof (n_priors_Some st n Hn) as [_ Hb].
  rewrite (np_index_lookup _ (k + n - 1) (proj r)); [done|lia|].
  replace (k + n - 1) with (n + k - 1) by lia. by rewrite list_lookup_fmap, Hr.
Qed.

(** The queries [j+1, j+2, ..., j+m] read the rows from [n + j] on, one
    row each. *)
Lemma get_dataset_queries_from st name proj (n : Z) (m j : nat) :
  n_priors st = Ok (Some n) ->
  has_column (results st) name = true -> cell name = Some proj ->
  (Z.to_nat n + j + m = length (df_rows (results st)))%nat ->
  map_result (fun k => _get_dataset name (Some k) None st)
    (seqZ (Z.of_nat j + 1) (Z.of_nat m))
  = Ok (map (fun r => [proj r]) (drop (Z.to_nat n + j) (df_rows (results st)))).
Proof.
  intros Hn Hc Hp. revert j. induction m as [|m IH]; intros j Hlen.
  - rewrite drop_ge by lia. done.
  - rewrite seqZ_cons by lia. cbn [map_result].
    pose proof (n_priors_Some st n Hn) as [_ Hb].
    destruct (lookup_lt_is_Some_2 (df_rows (results st)) (Z.to_nat n + j)) as [r Hr]; [lia|].
    rewrite (get_dataset_query_inside st name proj n (Z.of_nat j + 1) r); try done; try lia;
      [|by replace (Z.to_nat (n + (Z.of_nat j + 1) - 1)) with (Z.to_nat n + j)%nat by lia].
    cbn [rbind].
    replace (Z.succ (Z.of_nat j + 1)) with (Z.of_nat (S j) + 1) by lia.
    replace (Z.pred (Z.of_nat (S m))) with (Z.of_nat m) by lia.
    rewrite IH by lia. cbn [rbind].
    rewrite (drop_S _ _ _ Hr). cbn [map].
    by replace (S (Z.to_nat n + j)) with (Z.to_nat n + S j)%nat by lia.
Qed.

End Reading.

(** X6. Without a query and without a record id, [_get_dataset] returns
    the whole column in log order, one entry per labeled record, for each
    of the eight columns of a state whose table has them. *)
Theorem get_dataset_whole_column (st : HDF5State) (name : string) :
  _is_valid_state st = Ok tt -> name ∈ RESULTS_TABLE_COLUMNS ->
  exists proj, cell name = Some proj
    /\ _get_dataset name None None st = Ok (map proj (df_rows (results st)))
    /\ _get_dataset name None None st = df_getitem (results st) name
    /\ Z.of_nat (length (map proj (df_rows (results st)))) = n_records_labeled st.
Proof.
  intros Hv Hin. destruct (valid_state_getitem st name Hv Hin) as (proj & Hp & Hget).
  exists proj. split; [done|].
  rewrite (get_dataset_all st name proj) by (done || by apply valid_state_has_column).
  repeat split; [done|]. by rewrite length_map.
Qed.

(** The labels of the restored log of three rows. *)
Lemma get_dataset_whole_column_example :
  _get_dataset "labels" None None log_two_priors = Ok [VInt 1; VInt 1; VInt 1].
Proof.
  destruct (get_dataset_whole_column log_two_priors "labels" eq_refl) as (proj & Hp & Hget & _).
  - required_column.
  - injection Hp as <-. exact Hget.
Defined.

(** X7. With [n] priors, a query [k >= 1] addresses the row [n + k - 1]:
    it returns the single entry of that row when the row exists, and
    raises [IndexError] when the log is shorter. *)
Theorem get_dataset_query_row (st : HDF5State) (name : string) (proj : LogRow -> value)
    (n k : Z) :
  n_priors st = Ok (Some n) -> 1 <= k ->
  has_column (results st) name = true -> cell name = Some proj ->
  (forall r, df_rows (results st) !! Z.to_nat (n + k - 1) = Some r ->
     _get_dataset name (Some k) None st = Ok [proj r])
  /\ (n_records_labeled st <= n + k - 1 ->
      _get_dataset name (Some k) None st = Raise IndexError)
  /\ (n + k - 1 < n_records_labeled st ->
      exists r, df_rows (results st) !! Z.to_nat (n + k - 1) = Some r).
Proof.
  intros Hn Hk Hc Hp. pose proof (n_priors_Some st n Hn) as [_ Hb].
  unfold n_records_labeled, df_len. repeat split.
  - intros r Hr. by apply (get_dataset_query_inside st name proj n k r).
  - intros Hout.
    rewrite (get_dataset_query_nonzero st name proj k n) by (done || lia).
    rewrite np_index_out_of_range; [done|]. rewrite length_map. lia.
  - intros Hin. apply lookup_lt_is_Some_2. lia.
Qed.

(** Query 1 on the log of two priors and one queried row reads row 2. *)
Lemma get_dataset_query_row_example :
  _get_dataset "labeling_times" (Some 1) None log_two_priors = Ok [VInt 300].
Proof.
  pose proof (get_dataset_query_row log_two_priors "labeling_times"
                labeling_times 2 1
                eq_refl ltac:(lia) eq_refl eq_refl) as (Hrow & _).
  apply (Hrow (log_row 2 "nb" "max" 2 300)). reflexivity.
Defined.

(** X8. With [n] priors in a log of [n + m] rows, the queries
    [0, 1, ..., m] all return, query [0] the first [n] entries and each
    later query one entry, and their results put end to end are the
    whole column: the queries split the log without gap or overlap. *)
Theorem get_dataset_queries_cover_log (st : HDF5State) (name : string)
    (proj : LogRow -> value) (n : Z) :
  n_priors st = Ok (Some n) ->
  has_column (results st) name = true -> cell name = Some proj ->
  exists parts,
    map_result (fun k => _get_dataset name (Some k) None st)
      (seqZ 0 (n_records_labeled st - n + 1)) = Ok parts
    /\ concat parts = map proj (df_rows (results st))
    /\ Z.of_nat (length parts) = n_records_labeled st - n + 1.
Proof.
  intros Hn Hc Hp. pose proof (n_priors_Some st n Hn) as [_ Hb].
  unfold n_records_labeled, df_len.
  set (rows := df_rows (results st)) in *.
  set (m := (length rows - Z.to_nat n)%nat).
  replace (Z.of_nat (length rows) - n + 1) with (Z.succ (Z.of_nat m)) by lia.
  rewrite seqZ_cons by lia. cbn [map_result].
  rewrite (get_dataset_query0_known st name proj n Hn Hc Hp). cbn [rbind].
  replace (Z.pred (Z.succ (Z.of_nat m))) with (Z.of_nat m) by lia.
  change (Z.succ 0) with (Z.of_nat 0 + 1).
  rewrite (get_dataset_queries_from st name proj n m 0 Hn Hc Hp) by (fold rows; lia).
  cbn [rbind]. eexists. split; [reflexivity|]. fold rows. rewrite Nat.add_0_r. split.
  - cbn [concat]. rewrite <- (take_drop (Z.to_nat n) rows) at 3.
    rewrite map_app. f_equal.
    generalize (drop (Z.to_nat n) rows). intros l.
    induction l as [|r l IH]; [done|]. cbn. by rewrite IH.
  - cbn [length]. rewrite length_map, length_drop. lia.
Qed.

(** The three rows of the log of two priors: query 0, then query 1. *)
Lemma get_dataset_queries_cover_log_example :
  exists parts,
    map_result (fun k => _get_dataset "labeling_times" (Some k) None log_two_priors)
      (seqZ 0 (n_records_labeled log_two_priors - 2 + 1)) = Ok parts
    /\ concat parts = [VInt 100; VInt 200; VInt 300]
    /\ Z.of_nat (length parts) = n_records_labeled log_two_priors - 2 + 1.
Proof.
  apply (get_dataset_queries_cover_log log_two_priors "labeling_times"
           labeling_times 2); reflexivity.
Defined.

(** ** The record table, both ways *)

Section RecordTable.
Implicit Types (st : HDF5State) (table : list Z).

(** The first position reported by [np_where_from] holds the value, and it
    is not before [pos]. *)
Lemma np_where_from_head {A : Type} `{EqDecision A} (x : A) (arr : list A)
    (pos i : Z) (rest : list Z) :
  np_where_from x arr pos = i :: rest ->
  pos <= i /\ arr !! Z.to_nat (i - pos) = Some x
  /\ forall j y, (j < Z.to_nat (i - pos))%nat -> arr !! j = Some y -> y <> x.
Proof.
  revert pos. induction arr as [|y arr IH]; intros pos; [done|].
  cbn [np_where_from]. destruct (decide (y = x)) as [->|Hne].
  - intros [= <- _]. rewrite Z.sub_diag. split; [lia|split; [reflexivity|]].
    intros j z Hj. cbn in Hj. lia.
  - intros Hrun. destruct (IH (pos + 1) Hrun) as (Hle & Hi & Hfirst).
    replace (Z.to_nat (i - pos)) with (S (Z.to_nat (i - (pos + 1)))) by lia.
    split; [lia|split; [done|]].
    intros [|j] z Hj Hz; [by injection Hz as <-|]. apply (Hfirst j); [lia|done].
Qed.

Lemma np_where_from_nil_iff {A : Type} `{EqDecision A} (x : A) (arr : list A) (pos : Z) :
  np_where_from x arr pos = [] <-> x ∉ arr.
Proof.
  split; [|apply np_where_from_none].
  revert pos. induction arr as [|y arr IH]; intros pos; [by intros _ ?%elem_of_nil|].
  cbn [np_where_from]. destruct (decide (y = x)) as [->|Hne]; [done|].
  intros Hrun. apply not_elem_of_cons. split; [done|]. by apply (IH (pos + 1)).
Qed.

Lemma record_id_to_row_index_inv st table rid i :
  record_table st = Some table -> _record_id_to_row_index rid st = Ok i ->
  0 <= i < Z.of_nat (length table) /\ table !! Z.to_nat i = Some rid
  /\ forall j y, (j < Z.to_nat i)%nat -> table !! j = Some y -> y <> rid.
Proof.
  intros Ht. unfold _record_id_to_row_index, np_where. rewrite Ht.
  destruct (np_where_from rid table 0) as [|i' rest] eqn:Hrun; [done|].
  intros [= ->]. destruct (np_where_from_head rid table 0 i rest Hrun) as (Hle & Hi & Hfirst).
  rewrite Z.sub_0_r in *. pose proof (lookup_lt_Some _ _ _ Hi). repeat split; try done; lia.
Qed.

Lemma record_id_round_trip_inv st table rid i :
  record_table st = Some table -> _record_id_to_row_index rid st = Ok i ->
  0 <= i < Z.of_nat (length table) /\ _row_index_to_record_id i st = Ok rid.
Proof.
  intros Ht Hrow.
  destruct (record_id_to_row_index_inv st table rid i Ht Hrow) as (Hb & Hi & _).
  split; [done|]. unfold _row_index_to_record_id. rewrite Ht.
  by apply np_index_lookup; [lia|].
Qed.

Lemma record_id_to_row_index_unknown_iff st table rid :
  record_table st = Some table ->
  (_record_id_to_row_index rid st = Raise IndexError <-> rid ∉ table)
  /\ (rid ∈ table -> exists i, _record_id_to_row_index rid st = Ok i).
Proof.
  intros Ht. unfold _record_id_to_row_index, np_where. rewrite Ht.
  pose proof (np_where_from_nil_iff rid table 0) as Hnil.
  destruct (np_where_from rid table 0) as [|i rest].
  - split; [split; [intros _; by apply Hnil|done]|].
    intros Hin. by destruct (proj1 Hnil eq_refl).
  - split; [split; [done|intros Hnot; by apply Hnil in Hnot]|]. by eexists.
Qed.

End RecordTable.

(** X9. The row index that [_record_id_to_row_index] returns for a record
    id is a position of the record table, the first one that holds the
    id, and [_row_index_to_record_id] gives the id back from it. This
    direction of the round trip needs no assumption on the table. *)
Theorem record_id_round_trip (st : HDF5State) (table : list Z) (rid i : Z) :
  record_table st = Some table -> _record_id_to_row_index rid st = Ok i ->
  0 <= i < Z.of_nat (length table)
  /\ _row_index_to_record_id i st = Ok rid
  /\ forall j, 0 <= j < i -> _row_index_to_record_id j st <> Ok rid.
Proof.
  intros Ht Hrow. destruct (record_id_to_row_index_inv st table rid i Ht Hrow)
    as (Hb & Hi & Hfirst).
  split; [done|]. unfold _row_index_to_record_id. rewrite Ht. split.
  - by apply np_index_lookup; [lia|].
  - intros j Hj.
    destruct (lookup_lt_is_Some_2 table (Z.to_nat j)) as [y Hy]; [lia|].
    rewrite (np_index_lookup table j y) by (done || lia).
    intros [= ->]. apply (Hfirst (Z.to_nat j) rid); [lia|done|done].
Qed.

(** The record id 11 of the table [10, 11, 12]. *)
Lemma record_id_round_trip_example :
  _row_index_to_record_id 1 log_two_priors = Ok 11.
Proof.
  apply (record_id_round_trip log_two_priors [10; 11; 12] 11 1); reflexivity.
Defined.

(** X10. [_record_id_to_row_index] raises [IndexError] exactly for the
    record ids that the record table does not hold, and returns for all
    the others. *)
Theorem record_id_to_row_index_unknown (st : HDF5State) (table : list Z) (rid : Z) :
  record_table st = Some table ->
  (_record_id_to_row_index rid st = Raise IndexError <-> rid ∉ table)
  /\ (rid ∈ table -> exists i, _record_id_to_row_index rid st = Ok i).
Proof.
  apply record_id_to_row_index_unknown_iff.
Qed.

(** The id 99 is not in the table [10, 11, 12]. *)
Lemma record_id_to_row_index_unknown_example :
  _record_id_to_row_index 99 log_two_priors = Raise IndexError.
Proof.
  apply (record_id_to_row_index_unknown log_two_priors [10; 11; 12] 99 eq_refl).
  apply (bool_decide_unpack _). vm_compute. exact I.
Defined.

(** X11. [_row_index_to_record_id] accepts the positions from minus the
    length of the record table up to its length (excluded): a negative
    position [i] reads the same entry as [length + i], and every position
    outside that range raises [IndexError]. *)
Theorem row_index_to_record_id_range (st : HDF5State) (table : list Z) (i : Z) :
  record_table st = Some table ->
  (- Z.of_nat (length table) <= i < 0 ->
     _row_index_to_record_id i st = _row_index_to_record_id (Z.of_nat (length table) + i) st
     /\ exists rid, _row_index_to_record_id i st = Ok rid)
  /\ (0 <= i < Z.of_nat (length table) ->
     exists rid, table !! Z.to_nat i = Some rid /\ _row_index_to_record_id i st = Ok rid)
  /\ (i < - Z.of_nat (length table) \/ Z.of_nat (length table) <= i ->
     _row_index_to_record_id i st = Raise IndexError).
Proof.
  intros Ht. unfold _row_index_to_record_id. rewrite Ht. repeat split.
  - destruct (lookup_lt_is_Some_2 table (Z.to_nat (Z.of_nat (length table) + i)))
      as [rid Hrid]; [lia|].
    rewrite (np_index_from_end table i rid) by (done || lia).
    by rewrite (np_index_lookup table _ rid) by (done || lia).
  - destruct (lookup_lt_is_Some_2 table (Z.to_nat (Z.of_nat (length table) + i)))
      as [rid Hrid]; [lia|].
    exists rid. by apply np_index_from_end; [lia..|].
  - intros Hi. destruct (lookup_lt_is_Some_2 table (Z.to_nat i)) as [rid Hrid]; [lia|].
    exists rid. split; [done|]. by apply np_index_lookup; [lia|].
  - intros Hi. by apply np_index_out_of_range.
Qed.

(** Position [-1] of the table [10, 11, 12] is its last entry. *)
Lemma row_index_to_record_id_range_example :
  _row_index_to_record_id (-1) log_two_priors = _row_index_to_record_id 2 log_two_priors.
Proof.
  pose proof (row_index_to_record_id_range log_two_priors [10; 11; 12] (-1) eq_refl)
    as (Hneg & _).
  destruct Hneg as [Heq _]; [vm_compute; split; [discriminate|reflexivity]|].
  exact Heq.
Defined.

(** ** Reading the log by record id *)

Section ByRecord.
Implicit Types (st : HDF5State) (rows pre suf : list LogRow).

(** Taking the entries at the positions where the indices column holds
    [i] keeps the rows whose index is [i], in order. *)
Lemma np_take_where_indices (proj : LogRow -> value) (i : Z) pre suf :
  np_take (map proj (pre ++ suf))
    (np_where_from (VInt i) (map (fun r => VInt (indices r)) suf) (Z.of_nat (length pre)))
  = Ok (map proj (filter (fun r => indices r = i) suf)).
Proof.
  revert pre. induction suf as [|r suf IH]; intros pre; [done|].
  cbn [map np_where_from]. rewrite filter_cons.
  assert (Hnext : np_take (map proj (pre ++ r :: suf))
            (np_where_from (VInt i) (map (fun r => VInt (indices r)) suf)
               (Z.of_nat (length pre) + 1))
          = Ok (map proj (filter (fun r => indices r = i) suf))).
  { specialize (IH (pre ++ [r])%list). rewrite <- app_assoc in IH. cbn [app] in IH.
    rewrite length_app in IH. cbn [length] in IH.
    by replace (Z.of_nat (length pre + 1)) with (Z.of_nat (length pre) + 1) in IH by lia. }
  destruct (decide (indices r = i)) as [Hr|Hr].
  - rewrite decide_True by (by rewrite Hr). cbn [np_take].
    rewrite (np_index_lookup _ _ (proj r)); [|lia|].
    + cbn [rbind]. by rewrite Hnext.
    + rewrite Nat2Z.id, list_lookup_fmap, lookup_app_r by lia.
      by rewrite Nat.sub_diag.
  - rewrite decide_False by (by intros [= ?]). apply Hnext.
Qed.

End ByRecord.

(** X12. Given a record id and no query, [_get_dataset] returns the
    entries of the column at the rows that were labeled for that record,
    in log order: the rows whose index is the row index of the record id.
    It returns the empty array when the record was never labeled, and it
    raises [IndexError] when the record table does not hold the id. *)
Theorem get_dataset_by_record_id (st : HDF5State) (table : list Z) (name : string)
    (proj : LogRow -> value) (rid : Z) :
  _is_valid_state st = Ok tt -> record_table st = Some table ->
  has_column (results st) name = true -> cell name = Some proj ->
  (rid ∉ table -> _get_dataset name None (Some rid) st = Raise IndexError)
  /\ (forall i, _record_id_to_row_index rid st = Ok i ->
      _get_dataset name None (Some rid) st
      = Ok (map proj (filter (fun r => indices r = i) (df_rows (results st))))).
Proof.
  intros Hv Ht Hc Hp. split.
  - intros Hnot. unfold _get_dataset.
    apply (record_id_to_row_index_unknown_iff st table rid Ht) in Hnot. by rewrite Hnot.
  - intros i Hrow. unfold _get_dataset. rewrite Hrow. cbn [rbind].
    rewrite (df_getitem_known _ "indices" (fun r => VInt (indices r)))
      by first [reflexivity | apply valid_state_has_column; [done|required_column]].
    cbn [rbind]. rewrite (df_getitem_known _ _ _ Hc Hp). cbn [rbind].
    apply (np_take_where_indices proj i []).
Qed.

(** The labeling time of record 11, labeled in row 1 of the log. *)
Lemma get_dataset_by_record_id_example :
  _get_dataset "labeling_times" None (Some 11) log_two_priors = Ok [VInt 200].
Proof.
  pose proof (get_dataset_by_record_id log_two_priors [10; 11; 12] "labeling_times"
                labeling_times 11 eq_refl eq_refl eq_refl eq_refl)
    as [_ Hrows].
  apply (Hrows 1). reflexivity.
Defined.

Section Order.
Implicit Types (st : HDF5State).

Lemma map_result_row_index_to_record_id st table (ids idxs : list Z) :
  record_table st = Some table ->
  map_result (fun rid => _record_id_to_row_index rid st) ids = Ok idxs ->
  map_result (fun v => match v with
                       | VInt idx => _row_index_to_record_id idx st
                       | _ => Raise TypeError
                       end) (map VInt idxs)
  = Ok ids.
Proof.
  intros Ht. revert idxs. induction ids as [|rid ids IH]; intros idxs.
  - by intros [= <-].
  - cbn [map_result].
    destruct (_record_id_to_row_index rid st) as [i|e] eqn:Hrow; [|done]. cbn [rbind].
    destruct (map_result _ ids) as [idxs'|e]; [|done]. cbn [rbind]. intros [= <-].
    cbn [map map_result].
    destruct (record_id_round_trip_inv st table rid i Ht Hrow) as [_ ->].
    cbn [rbind]. by rewrite (IH idxs').
Qed.

End Order.

(** X13. When the indices column of the log holds the row indices of a
    list of record ids, as [add_labeling_data] computes them,
    [get_order_of_labeling] returns that list of record ids, in the
    order of the log. *)
Theorem get_order_of_labeling_record_ids (st : HDF5State) (table : list Z) (ids : list Z) :
  _is_valid_state st = Ok tt -> record_table st = Some table ->
  map_result (fun rid => _record_id_to_row_index rid st) ids
  = Ok (map indices (df_rows (results st))) ->
  get_order_of_labeling st = Ok ids
  /\ Z.of_nat (length ids) = n_records_labeled st.
Proof.
  intros Hv Ht Hids. split.
  - unfold get_order_of_labeling.
    rewrite (get_dataset_all st "indices" (fun r => VInt (indices r)))
      by first [reflexivity | apply valid_state_has_column; [done|required_column]].
    cbn [rbind]. rewrite <- (map_map indices VInt).
    by apply (map_result_row_index_to_record_id st table).
  - unfold n_records_labeled, df_len. rewrite <- (length_map indices).
    clear -Hids. revert Hids. generalize (map indices (df_rows (results st))).
    induction ids as [|rid ids IH]; intros idxs.
    + by intros [= <-].
    + cbn [map_result]. destruct (_record_id_to_row_index rid st); [|done]. cbn [rbind].
      destruct (map_result _ ids) as [idxs'|] eqn:Hrest; [|done]. cbn [rbind].
      intros [= <-]. cbn [length]. specialize (IH idxs' eq_refl). lia.
Qed.

(** The three rows of the restored log were labeled for the records 10, 11
    and 12. *)
Lemma get_order_of_labeling_record_ids_example :
  get_order_of_labeling log_two_priors = Ok [10; 11; 12].
Proof.
  apply (get_order_of_labeling_record_ids log_two_priors [10; 11; 12] [10; 11; 12]);
    reflexivity.
Defined.

(** ** Appending to the file *)

Section Appending.
Implicit Types (st : HDF5State) (h : H5File).

Lemma keeps_cache_ret {A : Type} (x : A) : keeps_cache (ret x).
Proof. by intros st. Qed.

Lemma keeps_cache_raise {A : Type} (e : exn) : keeps_cache (@raise A e).
Proof. by intros st. Qed.

Lemma keeps_cache_read {A : Type} (g : HDF5State -> result A) : keeps_cache (read g).
Proof. by intros st. Qed.

Lemma keeps_cache_bind {A B : Type} (m : M A) (k : A -> M B) :
  keeps_cache m -> (forall x, keeps_cache (k x)) -> keeps_cache (bind m k).
Proof.
  intros Hm Hk st. unfold bind. specialize (Hm st).
  destruct (m st) as [[x|e] st1]; cbn [snd] in *; [|done].
  destruct (Hk x st1) as (-> & -> & -> & ->). done.
Qed.

Lemma keeps_cache_append dataset values : keeps_cache (_append_to_dataset dataset values).
Proof.
  intros st. unfold _append_to_dataset, on_h5_item.
  destruct (f st) as [h|z]; [|done]. destruct (h5_open h); [|done].
  destruct (h5_results h) as [res|]; [|done].
  destruct (res !! dataset) as [ds|]; [|done].
  destruct (ds_resize ds _); [done|].
  by destruct (map_result (ds_convert ds) values).
Qed.

(** Six equal lengths are one distinct length. *)
Lemma n_distinct_equal (n : nat) : n_distinct [n; n; n; n; n; n] = 1%nat.
Proof.
  unfold n_distinct. apply remove_dups_length_one. exists n. split.
  - apply elem_of_cons. by left.
  - intros y Hy. repeat (apply elem_of_cons in Hy as [->|Hy]; [done|]).
    by apply elem_of_nil in Hy.
Qed.

(** The translation of the record ids stops with [IndexError] at the first
    id that the record table does not hold. *)
Lemma map_result_row_index_unknown st table (ids : list Z) (rid : Z) :
  record_table st = Some table -> rid ∈ ids -> rid ∉ table ->
  map_result (fun r => _record_id_to_row_index r st) ids = Raise IndexError.
Proof.
  intros Ht Hin Hnot. induction ids as [|x ids IH]; [by apply elem_of_nil in Hin|].
  cbn [map_result].
  destruct (decide (x ∈ table)) as [Hx|Hx].
  - destruct (proj2 (record_id_to_row_index_unknown_iff st table x Ht) Hx) as [i ->].
    cbn [rbind]. apply elem_of_cons in Hin as [->|Hin]; [done|].
    by rewrite (IH Hin).
  - by rewrite (proj2 (proj1 (record_id_to_row_index_unknown_iff st table x Ht)) Hx).
Qed.

Lemma get_dataset_same_cache st1 st2 name query record_id :
  results st1 = results st2 -> record_table st1 = record_table st2 ->
  _get_dataset name query record_id st1 = _get_dataset name query record_id st2.
Proof.
  intros Hr Ht.
  unfold _get_dataset, n_priors, _record_id_to_row_index, n_records_labeled.
  by rewrite Hr, Ht.
Qed.

End Appending.

(** X14. No call of [add_labeling_data], whatever its arguments and
    whether it returns or raises, changes the cached table, the metadata
    dictionary or the record table: the method writes to the group
    [results] of the file only. The number of labeled
    records, the number of priors and every answer of [_get_dataset] are
    therefore the same after the call as before. *)
Theorem add_labeling_data_keeps_cache (st : HDF5State)
    (record_ids labels : list Z) (models methods : list string)
    (training_sets labeling_times : list Z) :
  results (snd (add_labeling_data record_ids labels models methods training_sets
                  labeling_times st)) = results st
  /\ settings_metadata (snd (add_labeling_data record_ids labels models methods
                               training_sets labeling_times st)) = settings_metadata st
  /\ record_table (snd (add_labeling_data record_ids labels models methods training_sets
                          labeling_times st)) = record_table st
  /\ n_records_labeled (snd (add_labeling_data record_ids labels models methods
                               training_sets labeling_times st)) = n_records_labeled st
  /\ n_priors (snd (add_labeling_data record_ids labels models methods training_sets
                      labeling_times st)) = n_priors st
  /\ forall name query record_id,
       _get_dataset name query record_id
         (snd (add_labeling_data record_ids labels models methods training_sets
                 labeling_times st))
       = _get_dataset name query record_id st.
Proof.
  assert (Hkeep : keeps_cache (add_labeling_data record_ids labels models methods
                                 training_sets labeling_times)).
  { unfold add_labeling_data.
    apply keeps_cache_bind; [apply keeps_cache_read|intros _].
    destruct (negb _); [apply keeps_cache_raise|].
    apply keeps_cache_bind; [apply keeps_cache_read|intros idxs].
    repeat (apply keeps_cache_bind; [apply keeps_cache_append|intros _]).
    apply keeps_cache_append. }
  destruct (Hkeep st) as (Hr & Hm & Ht & _).
  repeat split; try done.
  - unfold n_records_labeled. by rewrite Hr.
  - unfold n_priors. by rewrite Hr.
  - intros. by apply get_dataset_same_cache.
Qed.

(** X15. On a state whose handle is the [ZipFile] of the open paths,
    [add_labeling_data] never returns: whatever the arguments, it raises,
    and the state is left as it was. *)
Theorem add_labeling_data_zip_never_returns (st : HDF5State) (z : ZipFile)
    (record_ids labels : list Z) (models methods : list string)
    (training_sets labeling_times : list Z) :
  f st = Zip z ->
  exists e, add_labeling_data record_ids labels models methods training_sets
              labeling_times st = (Raise e, st).
Proof.
  intros Hf. unfold add_labeling_data, bind, read, raise.
  destruct (_is_valid_state st); [|by eexists].
  destruct (negb _); [by eexists|].
  destruct (map_result _ record_ids); [|by eexists].
  unfold _append_to_dataset at 1, on_h5_item. rewrite Hf. by eexists.
Qed.

(** One record with all its data, on the new state file. *)
Lemma add_labeling_data_zip_never_returns_example :
  exists e, add_labeling_data [10] [1] ["nb"] ["max"] [1] [100] new_state
            = (Raise e, new_state).
Proof.
  apply (add_labeling_data_zip_never_returns new_state
           {| zf_namelist := ["settings_metadata.json"; "results.sql"]; zf_open := true |}).
  reflexivity.
Defined.

(** X16. When the six sequences have the same length and one of the
    record ids is not in the record table, [add_labeling_data] raises
    [IndexError] before it writes anything: the state is left as it was. *)
Theorem add_labeling_data_unknown_record (st : HDF5State) (table : list Z)
    (record_ids labels : list Z) (models methods : list string)
    (training_sets labeling_times : list Z) (rid : Z) :
  _is_valid_state st = Ok tt -> record_table st = Some table ->
  length labels = length record_ids -> length models = length record_ids ->
  length methods = length record_ids -> length training_sets = length record_ids ->
  length labeling_times = length record_ids ->
  rid ∈ record_ids -> rid ∉ table ->
  add_labeling_data record_ids labels models methods training_sets labeling_times st
  = (Raise IndexError, st).
Proof.
  intros Hv Ht H1 H2 H3 H4 H5 Hin Hnot.
  unfold add_labeling_data, bind, read. rewrite Hv, H1, H2, H3, H4, H5.
  rewrite bool_decide_eq_true_2 by apply n_distinct_equal. cbn [negb].
  by rewrite (map_result_row_index_unknown st table record_ids rid Ht Hin Hnot).
Qed.

(** The record 99 is not in the table [10, 11, 12]. *)
Lemma add_labeling_data_unknown_record_example :
  add_labeling_data [10; 99] [1; 0] ["nb"; "nb"] ["max"; "max"] [1; 1] [100; 200]
    h5_log_state
  = (Raise IndexError, h5_log_state).
Proof.
  apply (add_labeling_data_unknown_record h5_log_state [10; 11; 12]
           [10; 99] [1; 0] ["nb"; "nb"] ["max"; "max"] [1; 1] [100; 200] 99);
    try reflexivity.
  - apply (bool_decide_unpack _). vm_compute. exact I.
  - apply (bool_decide_unpack _). vm_compute. exact I.
Defined.

(** X20. [_add_settings_metadata] updates the metadata dictionary before
    it writes: after every call, returning or raising, the dictionary
    holds the value under the key and its other keys are as before, and
    the cached table and record table are untouched. The call returns
    exactly when the handle is an open [ZipFile] of a state that is not
    read-only, and it then adds one member to the archive. Written under
    the key "version", the value is what [version] returns afterwards. *)
Theorem add_settings_metadata_updates_dictionary (st : HDF5State) (key v : string) :
  settings_metadata (snd (_add_settings_metadata key v st)) !! key = Some v
  /\ (forall k, k <> key ->
       settings_metadata (snd (_add_settings_metadata key v st)) !! k
       = settings_metadata st !! k)
  /\ results (snd (_add_settings_metadata key v st)) = results st
  /\ record_table (snd (_add_settings_metadata key v st)) = record_table st
  /\ (fst (_add_settings_metadata key v st) = Ok tt
      <-> exists z, f st = Zip z /\ zf_open z = true /\ read_only st = false)
  /\ (forall z, f st = Zip z -> fst (_add_settings_metadata key v st) = Ok tt ->
       f (snd (_add_settings_metadata key v st))
       = Zip {| zf_namelist := zf_namelist z ++ ["settings_metadata.json"];
                zf_open := true |})
  /\ version (snd (_add_settings_metadata "version" v st)) = Ok v.
Proof.
  assert (Hdict : forall k' v', settings_metadata (snd (_add_settings_metadata k' v' st))
                  = <[k' := v']> (settings_metadata st)).
  { intros k' v'. unfold _add_settings_metadata.
    destruct (f st) as [h|z]; [done|]. by destruct (zf_open z && negb (read_only st)). }
  split; [by rewrite Hdict, lookup_insert_eq|].
  split; [intros k Hk; by rewrite Hdict, lookup_insert_ne|].
  unfold version. rewrite Hdict, lookup_insert_eq.
  unfold _add_settings_metadata.
  destruct (f st) as [h|z] eqn:Hf.
  - repeat split; try done. by intros (z & ? & _).
  - destruct (zf_open z) eqn:Hopen, (read_only st) eqn:Hro; cbn;
      repeat split; try done; try (intros (z' & [= <-] & ? & ?); congruence);
      try (by intros _; exists z); try (by intros z' [= <-]).
Qed.

Section Setters.
Implicit Types (st : HDF5State).

(** [self.f.attrs.pop(key, None)] followed by [self.f.attrs[key] = v]. *)
Lemma attrs_pop_setitem st key v :
  (f_attrs_pop key ;; f_attrs_setitem key v) st
  = match f st with
    | H5 h =>
        if h5_open h then
          (Ok tt, set_h5 {| h5_attrs := <[key := v]> (h5_attrs h);
                            h5_data_properties := h5_data_properties h;
                            h5_results := h5_results h;
                            h5_open := h5_open h |} st)
        else (Raise ValueError, st)
    | Zip _ => (Raise AttributeError, st)
    end.
Proof.
  unfold bind, f_attrs_pop, f_attrs_setitem, on_h5.
  destruct (f st) as [h|z] eqn:Hf; [|done].
  destruct (h5_open h) eqn:Hopen; [|done]. cbn.
  by rewrite insert_delete_eq.
Qed.

Lemma attrs_pop_setitem_twice st key v1 v2 :
  (f_attrs_pop key ;; f_attrs_setitem key v2)
    (snd ((f_attrs_pop key ;; f_attrs_setitem key v1) st))
  = (f_attrs_pop key ;; f_attrs_setitem key v2) st.
Proof.
  rewrite !attrs_pop_setitem.
  destruct (f st) as [h|z] eqn:Hf; cbn; [|by rewrite ?Hf].
  destruct (h5_open h) eqn:Hopen; cbn; [|by rewrite ?Hf, ?Hopen].
  by rewrite insert_insert_eq.
Qed.

Lemma attrs_pop_setitem_effect st key v :
  (forall z, f st = Zip z ->
     (f_attrs_pop key ;; f_attrs_setitem key v) st = (Raise AttributeError, st))
  /\ (fst ((f_attrs_pop key ;; f_attrs_setitem key v) st) = Ok tt ->
      file_attr (snd ((f_attrs_pop key ;; f_attrs_setitem key v) st)) key = Some v
      /\ forall k, k <> key ->
           file_attr (snd ((f_attrs_pop key ;; f_attrs_setitem key v) st)) k
           = file_attr st k)
  /\ settings_metadata (snd ((f_attrs_pop key ;; f_attrs_setitem key v) st))
     = settings_metadata st
  /\ results (snd ((f_attrs_pop key ;; f_attrs_setitem key v) st)) = results st.
Proof.
  rewrite attrs_pop_setitem. unfold file_attr.
  destruct (f st) as [h|z] eqn:Hf; [|by rewrite ?Hf].
  destruct (h5_open h) eqn:Hopen; [|by rewrite ?Hf].
  cbn. repeat split; try done.
  - by rewrite lookup_insert_eq.
  - intros k Hk. by rewrite lookup_insert_ne.
Qed.

End Setters.

(** X21. The setters of [settings] and of [current_queries] write to the
    root attributes of the file and nowhere else: when they return, the
    attribute holds the new value and the other attributes are as
    before, a second write replaces the first, and the metadata
    dictionary (which [version] and the getters read) and the cached
    table are never changed. On the [ZipFile] of the open paths they
    raise [AttributeError] and change nothing. *)
Theorem setters_write_file_attributes (st : HDF5State) (dumped dumped' : string)
    (json_dumps : list (string * string) -> string) (queries queries' : list (Z * string)) :
  ((forall z, f st = Zip z -> set_settings dumped st = (Raise AttributeError, st))
   /\ (fst (set_settings dumped st) = Ok tt ->
       file_attr (snd (set_settings dumped st)) "settings" = Some dumped
       /\ forall k, k <> "settings" ->
            file_attr (snd (set_settings dumped st)) k = file_attr st k)
   /\ settings_metadata (snd (set_settings dumped st)) = settings_metadata st
   /\ results (snd (set_settings dumped st)) = results st)
  /\ set_settings dumped' (snd (set_settings dumped st)) = set_settings dumped' st
  /\ ((forall z, f st = Zip z ->
        set_current_queries json_dumps queries st = (Raise AttributeError, st))
      /\ (fst (set_current_queries json_dumps queries st) = Ok tt ->
          file_attr (snd (set_current_queries json_dumps queries st)) "current_queries"
          = Some (json_dumps (map (fun kv => (str_of_int (fst kv), snd kv)) queries))
          /\ forall k, k <> "current_queries" ->
               file_attr (snd (set_current_queries json_dumps queries st)) k
               = file_attr st k)
      /\ settings_metadata (snd (set_current_queries json_dumps queries st))
         = settings_metadata st
      /\ results (snd (set_current_queries json_dumps queries st)) = results st)
  /\ set_current_queries json_dumps queries'
       (snd (set_current_queries json_dumps queries st))
     = set_current_queries json_dumps queries' st.
Proof.
  unfold set_settings, set_current_queries.
  split; [apply attrs_pop_setitem_effect|].
  split; [apply attrs_pop_setitem_twice|].
  split; [apply attrs_pop_setitem_effect|apply attrs_pop_setitem_twice].
Qed.

(** ** More on the feature store *)

Section Stored.
Implicit Types (st : HDF5State) (a : ASReviewData) (data_hash name : string).

Lemma keeps_stored_unchanged {A : Type} data_hash (m : M A) :
  (forall st r st', m st = (r, st') -> st' = st) -> keeps_stored data_hash m.
Proof. intros Hm st r st' Hrun. by rewrite (Hm st r st' Hrun). Qed.

Lemma keeps_stored_ret {A : Type} data_hash (x : A) : keeps_stored data_hash (ret x).
Proof. apply keeps_stored_unchanged. by intros st r st' [= _ <-]. Qed.

Lemma keeps_stored_bind {A B : Type} data_hash (m : M A) (k : A -> M B) :
  keeps_stored data_hash m -> (forall x, keeps_stored data_hash (k x)) ->
  keeps_stored data_hash (bind m k).
Proof.
  intros Hm Hk st r st'. unfold bind.
  destruct (m st) as [[x|e] st1] eqn:Hrun.
  - intros Hkx. destruct (Hm st _ st1 Hrun) as [Hd1 Hg1].
    destruct (Hk x st1 r st' Hkx) as [Hd2 Hg2]. split.
    + intros h n d Hd. by apply Hd2, Hd1.
    + intros h Hh. by rewrite Hg2, Hg1.
  - intros [= _ <-]. by apply (Hm st (Raise e) st1).
Qed.

Lemma keeps_stored_try {A : Type} data_hash (m handler : M A) (e : exn) :
  keeps_stored data_hash m -> keeps_stored data_hash handler ->
  keeps_stored data_hash (try_except m e handler).
Proof.
  intros Hm Hh st r st'. unfold try_except.
  destruct (m st) as [[x|e'] st1] eqn:Hrun.
  - intros [= _ <-]. by apply (Hm st (Ok x) st1).
  - destruct (Hm st _ st1 Hrun) as [Hd1 Hg1].
    destruct (decide (e' = e)).
    + intros Hrun'. destruct (Hh st1 r st' Hrun') as [Hd2 Hg2]. split.
      * intros h n d Hd. by apply Hd2, Hd1.
      * intros h Hh'. by rewrite Hg2, Hg1.
    + by intros [= _ <-].
Qed.

Lemma keeps_stored_getitem_data_properties data_hash :
  keeps_stored data_hash f_getitem_data_properties.
Proof.
  apply keeps_stored_unchanged. intros st r st'.
  unfold f_getitem_data_properties, on_h5_item.
  destruct (f st) as [h|z]; [|by intros [= _ <-]].
  destruct (h5_open h); [|by intros [= _ <-]].
  by destruct (h5_data_properties h); intros [= _ <-].
Qed.

Lemma keeps_stored_create_data_properties data_hash :
  keeps_stored data_hash f_create_group_data_properties.
Proof.
  intros st r st'. unfold f_create_group_data_properties, on_h5.
  destruct (f st) as [h|z] eqn:Hf; [|by intros [= _ <-]].
  destruct (h5_open h) eqn:Hopen; [|by intros [= _ <-]].
  destruct (h5_data_properties h) eqn:Hdp; [by intros [= _ <-]|].
  intros [= _ <-]. unfold stored_dataset, stored_group.
  rewrite Hf, Hopen, Hdp. cbn. rewrite Hopen. by split.
Qed.

Lemma keeps_stored_data_group_getitem data_hash :
  keeps_stored data_hash (data_group_getitem data_hash).
Proof.
  apply keeps_stored_unchanged. intros st r st'.
  unfold data_group_getitem, on_data_group, on_h5.
  destruct (f st) as [h|z]; [|by intros [= _ <-]].
  destruct (h5_open h); [|by intros [= _ <-]].
  destruct (h5_data_properties h) as [dp|]; [|by intros [= _ <-]].
  by destruct (dp !! data_hash); intros [= _ <-].
Qed.

Lemma keeps_stored_group_contains data_hash name :
  keeps_stored data_hash (group_contains data_hash name).
Proof.
  apply keeps_stored_unchanged. intros st r st'.
  unfold group_contains, on_as_data_group, on_data_group, on_h5.
  destruct (f st) as [h|z]; [|by intros [= _ <-]].
  destruct (h5_open h); [|by intros [= _ <-]].
  destruct (h5_data_properties h) as [dp|]; [|by intros [= _ <-]].
  by destruct (dp !! data_hash); intros [= _ <-].
Qed.

(** Replacing the group of [data_hash] by one that has the datasets of
    the old one keeps what is stored. *)
Lemma keeps_stored_insert_group st h dp data_hash g' :
  f st = H5 h -> h5_open h = true -> h5_data_properties h = Some dp ->
  (forall g n d, dp !! data_hash = Some g -> g_datasets g !! n = Some d ->
     g_datasets g' !! n = Some d) ->
  (forall h' n d, stored_dataset st h' n = Some d ->
     stored_dataset (set_h5 (set_data_properties (<[data_hash := g']> dp) h) st) h' n = Some d)
  /\ (forall h', h' <> data_hash ->
     stored_group (set_h5 (set_data_properties (<[data_hash := g']> dp) h) st) h'
     = stored_group st h').
Proof.
  intros Hf Hopen Hdp Hmono. unfold stored_dataset, stored_group.
  rewrite Hf, Hopen, Hdp. cbn. rewrite Hopen. split.
  - intros h' n d. destruct (decide (data_hash = h')) as [<-|Hne].
    + rewrite lookup_insert_eq. destruct (dp !! data_hash) as [g|] eqn:Hg; [|done].
      by apply Hmono.
    + by rewrite lookup_insert_ne.
  - intros h' Hne. by rewrite lookup_insert_ne.
Qed.

Lemma keeps_stored_create_group data_hash :
  keeps_stored data_hash (data_group_create_group data_hash).
Proof.
  intros st r st'. unfold data_group_create_group, on_data_group, on_h5.
  destruct (f st) as [h|z] eqn:Hf; [|by intros [= _ <-]].
  destruct (h5_open h) eqn:Hopen; [|by intros [= _ <-]].
  destruct (h5_data_properties h) as [dp|] eqn:Hdp; [|by intros [= _ <-]].
  case_bool_decide; [by intros [= _ <-]|].
  destruct (dp !! data_hash) eqn:Hg; [by intros [= _ <-]|].
  intros [= _ <-]. apply (keeps_stored_insert_group st h dp data_hash); try done.
  intros g n d Hg'. congruence.
Qed.

Lemma keeps_stored_create_dataset data_hash name d :
  keeps_stored data_hash (group_create_dataset data_hash name d).
Proof.
  intros st r st'. unfold group_create_dataset, on_as_data_group, on_data_group, on_h5.
  destruct (f st) as [h|z] eqn:Hf; [|by intros [= _ <-]].
  destruct (h5_open h) eqn:Hopen; [|by intros [= _ <-]].
  destruct (h5_data_properties h) as [dp|] eqn:Hdp; [|by intros [= _ <-]].
  destruct (dp !! data_hash) as [g|] eqn:Hg; [|by intros [= _ <-]].
  destruct d as [d|]; [|by intros [= _ <-]].
  destruct (g_datasets g !! name) eqn:Hname; [by intros [= _ <-]|].
  intros [= _ <-]. apply (keeps_stored_insert_group st h dp data_hash); try done.
  intros g0 n d0 Hg0 Hn. rewrite Hg in Hg0. injection Hg0 as <-. cbn.
  destruct (decide (name = n)) as [<-|Hne]; [congruence|by rewrite lookup_insert_ne].
Qed.

Lemma keeps_stored_attrs_setitem data_hash key v :
  keeps_stored data_hash (group_attrs_setitem data_hash key v).
Proof.
  intros st r st'. unfold group_attrs_setitem, on_as_data_group, on_data_group, on_h5.
  destruct (f st) as [h|z] eqn:Hf; [|by intros [= _ <-]].
  destruct (h5_open h) eqn:Hopen; [|by intros [= _ <-]].
  destruct (h5_data_properties h) as [dp|] eqn:Hdp; [|by intros [= _ <-]].
  destruct (dp !! data_hash) as [g|] eqn:Hg; [|by intros [= _ <-]].
  intros [= _ <-]. apply (keeps_stored_insert_group st h dp data_hash); try done.
  intros g0 n d0 Hg0 Hn. rewrite Hg in Hg0. by injection Hg0 as <-.
Qed.

Lemma keeps_stored_add_as_data a fm : keeps_stored (hash a) (_add_as_data a fm).
Proof.
  unfold _add_as_data.
  apply keeps_stored_bind; [|intros _].
  { apply keeps_stored_try;
      [apply keeps_stored_getitem_data_properties|apply keeps_stored_create_data_properties]. }
  apply keeps_stored_bind; [|intros _].
  { apply keeps_stored_try;
      [apply keeps_stored_data_group_getitem|apply keeps_stored_create_group]. }
  apply keeps_stored_bind; [apply keeps_stored_group_contains|intros has_table].
  apply keeps_stored_bind; [|intros _].
  { destruct (negb has_table);
      [apply keeps_stored_create_dataset|apply keeps_stored_ret]. }
  destruct fm as [[m|ip ix sh d|m]|]; [..|apply keeps_stored_ret].
  - apply keeps_stored_bind; [apply keeps_stored_group_contains|intros present].
    destruct present; [apply keeps_stored_ret|].
    apply keeps_stored_bind; [apply keeps_stored_create_dataset|intros _].
    apply keeps_stored_attrs_setitem.
  - apply keeps_stored_bind; [apply keeps_stored_group_contains|intros present].
    destruct present; [apply keeps_stored_ret|].
    repeat (apply keeps_stored_bind; [apply keeps_stored_create_dataset|intros _]).
    apply keeps_stored_attrs_setitem.
  - apply keeps_stored_bind; [apply keeps_stored_create_dataset|intros _].
    apply keeps_stored_attrs_setitem.
Qed.

End Stored.

(** X22. [_add_as_data] only ever adds: whatever the arguments and the
    outcome, every dataset stored below [/data_properties] before the
    call is there after it with the same content (a record table or a
    matrix, once written, is never overwritten or removed), and the
    groups of all other data hashes are exactly as before. *)
Theorem add_as_data_write_once (st : HDF5State) (a : ASReviewData)
    (fm : option FeatureMatrix) :
  (forall h name d, stored_dataset st h name = Some d ->
     stored_dataset (snd (_add_as_data a fm st)) h name = Some d)
  /\ (forall h, h <> hash a ->
     stored_group (snd (_add_as_data a fm st)) h = stored_group st h).
Proof.
  apply (keeps_stored_add_as_data a fm st (fst (_add_as_data a fm st))).
  by destruct (_add_as_data a fm st).
Qed.

(** X24. [_add_as_data] works on an open HDF5 file only: on the [ZipFile]
    of the open paths it raises [TypeError], on a closed HDF5 file
    [ValueError], in both cases before it changes anything and whatever
    its arguments. *)
Theorem add_as_data_needs_open_hdf5 (st : HDF5State) (a : ASReviewData)
    (fm : option FeatureMatrix) :
  (forall z, f st = Zip z -> _add_as_data a fm st = (Raise TypeError, st))
  /\ (forall h, f st = H5 h -> h5_open h = false ->
      _add_as_data a fm st = (Raise ValueError, st))
  /\ (fst (_add_as_data a fm st) = Ok tt -> exists h, f st = H5 h /\ h5_open h = true).
Proof.
  assert (Hzip : forall z, f st = Zip z -> _add_as_data a fm st = (Raise TypeError, st)).
  { intros z Hf.
    unfold _add_as_data, bind, try_except, f_getitem_data_properties, on_h5_item.
    by rewrite Hf. }
  assert (Hclosed : forall h, f st = H5 h -> h5_open h = false ->
            _add_as_data a fm st = (Raise ValueError, st)).
  { intros h Hf Hopen.
    unfold _add_as_data, bind, try_except, f_getitem_data_properties, on_h5_item.
    rewrite Hf, Hopen. rewrite decide_True by done.
    unfold f_create_group_data_properties, on_h5. by rewrite Hf, Hopen. }
  repeat split; [done..|].
  destruct (f st) as [h|z] eqn:Hf.
  - destruct (h5_open h) eqn:Hopen; [by exists h|]. by rewrite (Hclosed h).
  - by rewrite (Hzip z).
Qed.

(** ** Examples for the lemmas of the earlier sections *)

(** The log of two priors and one queried row has the two models that its
    pairs give. *)
Lemma n_predictor_models_distinct_pairs_example :
  n_predictor_models log_two_priors
  = Ok (n_predictor_models_pairs (df_rows (results log_two_priors))).
Proof.
  apply (n_predictor_models_distinct_pairs log_two_priors).
  - reflexivity.
  - reflexivity.
  - intros r1 r2 H1 H2.
    change (df_rows (results log_two_priors))
      with [ log_row 0 "nb" "prior" (-1) 100; log_row 1 "nb" "prior" (-1) 200;
             log_row 2 "nb" "max" 2 300 ] in H1, H2.
    repeat (apply elem_of_cons in H1 as [->|H1]);
      try (by apply elem_of_nil in H1);
      repeat (apply elem_of_cons in H2 as [->|H2]);
      try (by apply elem_of_nil in H2);
      vm_compute; intros Hid; first [reflexivity | discriminate Hid].
Defined.

(** The labels of the two priors. *)
Lemma get_dataset_query0_prior_rows_example :
  exists proj, cell "labels" = Some proj
    /\ _get_dataset "labels" (Some 0) None log_two_priors
       = Ok (map proj (take (Z.to_nat 2) (df_rows (results log_two_priors))))
    /\ Z.of_nat (length (take (Z.to_nat 2) (df_rows (results log_two_priors)))) = 2.
Proof.
  apply (get_dataset_query0_prior_rows log_two_priors "labels" 2).
  - reflexivity.
  - required_column.
  - reflexivity.
Defined.

(** Closing the read-only restored log. *)
Lemma close_read_only_example :
  fst (close "2021-03-01 11:00:00" log_two_priors) = Ok tt
  /\ f_is_open (snd (close "2021-03-01 11:00:00" log_two_priors)) = false.
Proof.
  pose proof (close_read_only log_two_priors "2021-03-01 11:00:00" eq_refl)
    as (Hok & Hclosed & _).
  split; [exact Hok|exact Hclosed].
Defined.

(** The version "1.1" of the restored log. *)
Lemma is_valid_version_one_character_major_example :
  _is_valid_version log_two_priors
  = Ok (bool_decide (major_token "1.1" = major_token LATEST_HDF5STATE_VERSION)).
Proof.
  apply (is_valid_version_one_character_major log_two_priors "1.1"); reflexivity.
Defined.
